(** * Sheet monitor: a shallow embedding of [scripts/sheet_monitor.py]

    The script polls column A of a spreadsheet, and for every paper id it has
    not processed yet asks the issue tracker whether an issue exists and
    creates one otherwise.  The set of processed ids is kept in
    [sheet_state.json] between runs.

    Python values are modelled as follows.
    - [str]: [string]; a character is a code point below 256.
    - the state dictionary ([json.load] / [json.dump]): a [gmap] from keys to
      lists of strings, the only shape the script itself ever writes.
    - [processed_ids], a Python [set]: [gset string].
    - everything the script cannot control (the spreadsheet, the tracker, the
      clock, file-system faults) is an abstract world state [R] that every
      remote call reads and advances.
    - [print], HTTP calls and file writes are recorded, in order, in a trace
      of events. *)

From Stdlib Require Import ZArith String Ascii List Lia.
From stdpp Require Import base gmap sets list strings.

Local Open Scope string_scope.
Local Open Scope Z_scope.
Local Open Scope list_scope.

(** ** Strings *)

Module Str.

(** [str.isspace] on one code point below 256: tab, line feed, vertical tab,
    form feed, carriage return, the four separators 0x1c-0x1f, space, next
    line (0x85) and no-break space (0xa0). *)
Definition isspace (c : ascii) : bool :=
  let n := nat_of_ascii c in
  ((9 <=? n) && (n <=? 13))%nat || ((28 <=? n) && (n <=? 32))%nat
  || (n =? 133)%nat || (n =? 160)%nat.

Fixpoint lstrip (s : string) : string :=
  match s with
  | EmptyString => EmptyString
  | String c s' => if isspace c then lstrip s' else s
  end.

Fixpoint rstrip (s : string) : string :=
  match s with
  | EmptyString => EmptyString
  | String c s' =>
      match rstrip s' with
      | EmptyString => if isspace c then EmptyString else String c EmptyString
      | t => String c t
      end
  end.

(** [s.strip()] *)
Definition strip (s : string) : string := rstrip (lstrip s).

(** Truth value of a string: [bool(s)]. *)
Definition truthy (s : string) : bool :=
  match s with EmptyString => false | String _ _ => true end.

(** [sub in s]: [sub] occurs in [s] at some offset. *)
Fixpoint contains (sub s : string) : bool :=
  String.prefix sub s ||
  match s with
  | EmptyString => false
  | String _ s' => contains sub s'
  end.

End Str.

(** ** Fetch: the pure part of [_get_sheet_data] *)

(** One row of the [values] array returned by the spreadsheet API. *)
Abbreviation row := (list string).

(** The loop body of [_get_sheet_data]:
    [if row and row[0].strip(): paper_ids.append(row[0].strip())]. *)
Definition append_row (paper_ids : list string) (r : row) : list string :=
  match r with
  | [] => paper_ids
  | cell :: _ =>
      if Str.truthy (Str.strip cell) then paper_ids ++ [Str.strip cell]
      else paper_ids
  end.

(** [values[1:]] *)
Definition skip_first {A} (values : list A) : list A :=
  match values with [] => [] | _ :: rest => rest end.

(** The [for row in values[1:]] loop of [_get_sheet_data], started with
    [paper_ids = []]. *)
Definition collect_paper_ids (values : list row) : list string :=
  fold_left append_row (skip_first values) [].

(** The same extraction in the words of the specification: drop the first
    row, take the first cell of every later row that has one, trim it and
    keep the non-empty results in sheet order. *)
Definition spec_extract (values : list row) : list string :=
  List.filter Str.truthy (Str.strip <$> omap head (skip_first values)).

(** ** Remote data *)

(** An issue object of the tracker; the script reads [issue['title']] and
    [issue_data['number']], which the tracker always sends. *)
Record Issue := { number : Z; title : string }.

(** A [requests] response.  [json = None] when [response.json()] raises. *)
Record Response (B : Type) := { status_code : Z; text : string; json : option B }.
Arguments status_code {B} _.
Arguments text {B} _.
Arguments json {B} _.

(** What [requests.get] / [requests.post] do: raise, or hand back a response. *)
Inductive HttpResult (B : Type) :=
| RequestException
| Responded (response : Response B).
Arguments RequestException {B}.
Arguments Responded {B} _.

(** What [spreadsheets().values().get(...).execute()] does: raise
    [HttpError], raise something else (a transport error, which
    [_get_sheet_data] does not catch), or return a result whose ['values']
    key may be missing. *)
Inductive SheetsResult :=
| HttpError
| OtherError
| Result (values : option (list row)).

(** [sheet_state.json] on disk: absent, present but not loadable, or a JSON
    object whose values are lists of strings, which is what the script
    writes.  A loadable file of another shape (a JSON list, a [null] under
    [processed_paper_ids]), on which [run] raises before it fetches, is not
    a value of this type. *)
Inductive File :=
| Missing
| Unreadable
| Json (state : gmap string (list string)).

(** What [open(state_file, 'w')] followed by [json.dump] does: succeed, fail
    before the file is touched, or fail after [open] truncated it. *)
Inductive WriteResult := Written | OpenFailed | DumpFailed.

(** The lines the script prints, one constructor per [print] call of the
    class methods reached from [run]; timestamps and exception texts are
    left out. *)
Inductive Msg :=
| MsgStarting
| MsgInitFailed
| MsgErrorLoading
| MsgErrorSaving
| MsgNoData
| MsgErrorFetching
| MsgNoPaperIds
| MsgFound (count : nat)
| MsgCreated (number : Z) (paper_id : string)
| MsgCreateFailed (paper_id : string) (status : Z) (body : string)
| MsgCreateError (paper_id : string)
| MsgCheckError
| MsgExists (paper_id : string)
| MsgComplete (new_issues_created : nat).

Inductive Event :=
| Print (m : Msg)
| SheetsGet (r : SheetsResult)
| HttpGet (paper_id : string) (r : HttpResult (list Issue))
| HttpPost (paper_id : string) (r : HttpResult Issue)
| FileWrite (state : gmap string (list string)) (r : WriteResult).

(** A call either returns or lets an exception escape. *)
Inductive Outcome (A : Type) :=
| Return (a : A)
| Raise.
Arguments Return {A} _.
Arguments Raise {A}.

(** ** The outside world *)

(** The services the script talks to, over a world state [R] of their own.
    The request a call sends is fixed by the environment variables and the
    paper id, so the paper id is the only argument kept. *)
Class Outside (R : Type) := {
  sheets_execute : R -> SheetsResult * R;
  requests_get : string -> R -> HttpResult (list Issue) * R;
  requests_post : string -> R -> HttpResult Issue * R;
  file_write : R -> WriteResult * R
}.

Record World (R : Type) := { remote : R; disk : File }.
Arguments remote {R} _.
Arguments disk {R} _.

(** ** The monad of the script: world passing with a trace *)

Definition M (R A : Type) : Type := World R -> A * World R * list Event.

Definition ret {R A} (a : A) : M R A := fun w => (a, w, []).

Definition bind {R A B} (c : M R A) (k : A -> M R B) : M R B :=
  fun w =>
    let '(a, w1, t1) := c w in
    let '(b, w2, t2) := k a w1 in
    (b, w2, t1 ++ t2).

Declare Scope monitor_scope.
Delimit Scope monitor_scope with monitor.
Notation "x <- y ;; z" := (bind y (fun x => z))
  (at level 20, y at level 99, z at level 200, only parsing) : monitor_scope.
Notation "x ;; z" := (bind x (fun _ => z))
  (at level 100, z at level 200, only parsing, right associativity) : monitor_scope.

Definition value {R A} (r : A * World R * list Event) : A := r.1.1.
Definition final {R A} (r : A * World R * list Event) : World R := r.1.2.
Definition trace {R A} (r : A * World R * list Event) : list Event := r.2.
Arguments value {R A} !r /.
Arguments final {R A} !r /.
Arguments trace {R A} !r /.

Section Monitor.
Context {R : Type} {O : Outside R}.
Local Open Scope monitor_scope.

Definition print (m : Msg) : M R unit := fun w => (tt, w, [Print m]).

Definition call_sheets : M R SheetsResult := fun w =>
  let '(r, x) := sheets_execute (remote w) in
  (r, {| remote := x; disk := disk w |}, [SheetsGet r]).

Definition http_get (paper_id : string) : M R (HttpResult (list Issue)) := fun w =>
  let '(r, x) := requests_get paper_id (remote w) in
  (r, {| remote := x; disk := disk w |}, [HttpGet paper_id r]).

Definition http_post (paper_id : string) : M R (HttpResult Issue) := fun w =>
  let '(r, x) := requests_post paper_id (remote w) in
  (r, {| remote := x; disk := disk w |}, [HttpPost paper_id r]).

(** [{'processed_paper_ids': []}] *)
Definition default_state : gmap string (list string) :=
  {[ "processed_paper_ids" := [] ]}.

(** [_load_state]: a missing file gives the default state silently, a file
    that cannot be opened or parsed gives it after a printed error. *)
Definition _load_state : M R (gmap string (list string)) := fun w =>
  match disk w with
  | Missing => (default_state, w, [])
  | Unreadable => (default_state, w, [Print MsgErrorLoading])
  | Json state => (state, w, [])
  end.

(** [_save_state]: every failure is caught and printed.  A failure of
    [open] leaves the file as it was; a failure of [json.dump] leaves the
    file that [open(..., 'w')] has already truncated. *)
Definition _save_state (state : gmap string (list string)) : M R unit := fun w =>
  let '(r, x) := file_write (remote w) in
  match r with
  | Written => (tt, {| remote := x; disk := Json state |}, [FileWrite state r])
  | OpenFailed =>
      (tt, {| remote := x; disk := disk w |}, [FileWrite state r; Print MsgErrorSaving])
  | DumpFailed =>
      (tt, {| remote := x; disk := Unreadable |}, [FileWrite state r; Print MsgErrorSaving])
  end.

Definition _get_sheet_data : M R (Outcome (list string)) :=
  result <- call_sheets ;;
  match result with
  | Result values =>
      match default [] values with
      | [] => print MsgNoData ;; ret (Return [])
      | values => ret (Return (collect_paper_ids values))
      end
  | HttpError => print MsgErrorFetching ;; ret (Return [])
  | OtherError => ret Raise
  end.

Definition _create_github_issue (paper_id : string) : M R bool :=
  r <- http_post paper_id ;;
  match r with
  | Responded response =>
      if status_code response =? 201 then
        match json response with
        | Some issue_data =>
            print (MsgCreated (number issue_data) paper_id) ;; ret true
        | None => print (MsgCreateError paper_id) ;; ret false
        end
      else
        print (MsgCreateFailed paper_id (status_code response) (text response))
        ;; ret false
  | RequestException => print (MsgCreateError paper_id) ;; ret false
  end.

(** [for issue in issues: if paper_id in issue['title']: return True] *)
Fixpoint scan_issues (paper_id : string) (issues : list Issue) : bool :=
  match issues with
  | [] => false
  | issue :: rest =>
      if Str.contains paper_id (title issue) then true
      else scan_issues paper_id rest
  end.

Definition _check_existing_issues (paper_id : string) : M R bool :=
  r <- http_get paper_id ;;
  match r with
  | Responded response =>
      if status_code response =? 200 then
        match json response with
        | Some issues => ret (scan_issues paper_id issues)
        | None => print MsgCheckError ;; ret false
        end
      else ret false
  | RequestException => print MsgCheckError ;; ret false
  end.

(** The body of [for paper_id in current_paper_ids] in [run]; the pair is
    [(processed_ids, new_issues_created)]. *)
Definition process_paper_id (paper_id : string) (acc : gset string * nat)
  : M R (gset string * nat) :=
  let '(processed_ids, new_issues_created) := acc in
  if decide (paper_id ∈ processed_ids) then ret acc
  else
    found <- _check_existing_issues paper_id ;;
    if negb found then
      created <- _create_github_issue paper_id ;;
      if created then
        ret ({[paper_id]} ∪ processed_ids, S new_issues_created)
      else ret acc
    else
      print (MsgExists paper_id)
      ;; ret ({[paper_id]} ∪ processed_ids, new_issues_created).

Fixpoint for_each (ids : list string) (acc : gset string * nat)
  : M R (gset string * nat) :=
  match ids with
  | [] => ret acc
  | paper_id :: rest =>
      acc' <- process_paper_id paper_id acc ;; for_each rest acc'
  end.

(** [set(state.get('processed_paper_ids', []))] *)
Definition seen_of (state : gmap string (list string)) : gset string :=
  list_to_set (default [] (state !! "processed_paper_ids")).

(** The monitor object: of the attributes set by [__init__], [run] itself
    reads only [sheets_service] ([None] when initialisation failed). *)
Record SheetMonitor := { sheets_service : option unit }.

(** [run].  [list(processed_ids)] is [elements]: some enumeration of the
    set without repetition; no property below depends on its order. *)
Definition run (self : SheetMonitor) : M R (Outcome unit) :=
  print MsgStarting ;;
  match sheets_service self with
  | None => print MsgInitFailed ;; ret (Return tt)
  | Some _ =>
      state <- _load_state ;;
      let processed_ids := seen_of state in
      fetched <- _get_sheet_data ;;
      match fetched with
      | Raise => ret Raise
      | Return [] => print MsgNoPaperIds ;; ret (Return tt)
      | Return current_paper_ids =>
          print (MsgFound (length current_paper_ids)) ;;
          acc <- for_each current_paper_ids (processed_ids, 0%nat) ;;
          _save_state (<["processed_paper_ids" := elements acc.1]> state) ;;
          print (MsgComplete acc.2) ;;
          ret (Return tt)
      end
  end.

End Monitor.

(** ** Reading a trace *)

(** The value [_check_existing_issues paper_id] returns when the tracker
    answers [r] (lemma [check_value] below). *)
Definition check_verdict (paper_id : string) (r : HttpResult (list Issue)) : bool :=
  match r with
  | Responded response =>
      (status_code response =? 200) &&
      match json response with
      | Some issues => scan_issues paper_id issues
      | None => false
      end
  | RequestException => false
  end.

(** The value [_create_github_issue] returns when the tracker answers [r]
    (lemma [create_value] below). *)
Definition create_verdict (r : HttpResult Issue) : bool :=
  match r with
  | Responded response =>
      (status_code response =? 201) &&
      match json response with Some _ => true | None => false end
  | RequestException => false
  end.

(** The HTTP status of an answer, if there is one. *)
Definition status_of {B} (r : HttpResult B) : option Z :=
  match r with
  | Responded response => Some (status_code response)
  | RequestException => None
  end.

(** [e] is a call to the tracker about [x]. *)
Definition touches (x : string) (e : Event) : Prop :=
  match e with
  | HttpGet p _ | HttpPost p _ => p = x
  | _ => False
  end.

(** [e] is a call after which the loop adds [x] to [processed_ids]: a check
    that found an issue, or a create that succeeded. *)
Definition marks (x : string) (e : Event) : Prop :=
  match e with
  | HttpGet p r => p = x /\ check_verdict p r = true
  | HttpPost p r => p = x /\ create_verdict r = true
  | _ => False
  end.

(** [e] is a create call that succeeded. *)
Definition created (e : Event) : bool :=
  match e with
  | HttpPost _ r => create_verdict r
  | _ => false
  end.

(** [e] is a successful create call for [x]. *)
Definition created_for (x : string) (e : Event) : bool :=
  match e with
  | HttpPost p r => String.eqb p x && create_verdict r
  | _ => false
  end.

(** [e] is one of the effects of reconciliation and saving: a call to the
    tracker or a write of the state file. *)
Definition acts (e : Event) : Prop :=
  match e with
  | HttpGet _ _ | HttpPost _ _ | FileWrite _ _ => True
  | _ => False
  end.

(** [e] is one of the two summary lines, with its count. *)
Definition summary (e : Event) : Prop :=
  match e with
  | Print (MsgFound _) | Print (MsgComplete _) => True
  | _ => False
  end.

(** [e] is not a create call that failed. *)
Definition post_ok (e : Event) : Prop :=
  match e with
  | HttpPost _ r => create_verdict r = true
  | _ => True
  end.

(** [e] is not a call to the tracker. *)
Definition no_call (e : Event) : Prop :=
  match e with
  | HttpGet _ _ | HttpPost _ _ => False
  | _ => True
  end.

(** [e] is neither a call to the tracker, nor a write of the state file, nor
    a summary line: a spreadsheet read or one of the other printed lines. *)
Definition plain (e : Event) : Prop :=
  match e with
  | Print (MsgFound _) | Print (MsgComplete _) => False
  | Print _ | SheetsGet _ => True
  | _ => False
  end.

(** Once a call has marked [x], no later call is about [x]. *)
Fixpoint settled (x : string) (t : list Event) : Prop :=
  match t with
  | [] => True
  | e :: t' => (marks x e -> Forall (fun e' => ~ touches x e') t') /\ settled x t'
  end.

(** [sub] occurs in [s]: the meaning of Python's [sub in s]. *)
Definition occurs_in (sub s : string) : Prop :=
  exists pre post, s = pre +:+ sub +:+ post.

(** ** The loop, seen from the trace

    What one turn of the loop does to [(processed_ids, new_issues_created)]
    and which events it leaves, whatever the world is.  Lemmas
    [process_paper_id_step] and [for_each_loop] show that the functions
    above behave in no other way. *)

Definition is_print (e : Event) : Prop :=
  match e with Print _ => True | _ => False end.

Inductive Step (p : string) (S : gset string) (n : nat)
  : gset string * nat -> list Event -> Prop :=
| step_skip :
    p ∈ S -> Step p S n (S, n) []
| step_exists r ps :
    p ∉ S -> check_verdict p r = true -> Forall is_print ps ->
    Step p S n ({[p]} ∪ S, n) (HttpGet p r :: ps)
| step_created r r' ps ps' :
    p ∉ S -> check_verdict p r = false -> create_verdict r' = true ->
    Forall is_print ps -> Forall is_print ps' ->
    Step p S n ({[p]} ∪ S, Datatypes.S n) (HttpGet p r :: ps ++ HttpPost p r' :: ps')
| step_failed r r' ps ps' :
    p ∉ S -> check_verdict p r = false -> create_verdict r' = false ->
    Forall is_print ps -> Forall is_print ps' ->
    Step p S n (S, n) (HttpGet p r :: ps ++ HttpPost p r' :: ps').

Inductive Loop : list string -> gset string * nat -> gset string * nat ->
                 list Event -> Prop :=
| loop_nil acc : Loop [] acc acc []
| loop_cons p ids acc acc' acc'' t1 t2 :
    Step p acc.1 acc.2 acc' t1 -> Loop ids acc' acc'' t2 ->
    Loop (p :: ids) acc acc'' (t1 ++ t2).

(** ** Concrete worlds *)

(** A world without memory: every call is answered from a fixed table. *)
Record Script := {
  sheet : SheetsResult;
  listing : string -> HttpResult (list Issue);
  posting : string -> HttpResult Issue;
  writing : WriteResult
}.

Definition scripted (s : Script) : Outside unit := {|
  sheets_execute := fun x => (sheet s, x);
  requests_get := fun paper_id x => (listing s paper_id, x);
  requests_post := fun paper_id x => (posting s paper_id, x);
  file_write := fun x => (writing s, x)
|}.

Definition ok_list (issues : list Issue) : HttpResult (list Issue) :=
  Responded {| status_code := 200; text := ""; json := Some issues |}.

Definition ok_created (n : Z) (paper_id : string) : HttpResult Issue :=
  Responded {| status_code := 201; text := "";
               json := Some {| number := n; title := paper_id |} |}.

Definition server_error {B} : HttpResult B :=
  Responded {| status_code := 500; text := "Internal Server Error"; json := None |}.

(** The sheet of the specification's examples. *)
Definition example_rows : list row := [["header"]; ["P1"]; [""]; ["P2"]].

(** A tracker that has no issues and accepts every create. *)
Definition healthy : Script := {|
  sheet := Result (Some example_rows);
  listing := fun _ => ok_list [];
  posting := fun paper_id => ok_created 1 paper_id;
  writing := Written
|}.

(** A tracker that has no issues and refuses every create. *)
Definition refusing : Script := {|
  sheet := Result (Some [["id"]; ["X"]]);
  listing := fun _ => ok_list [];
  posting := fun _ => server_error;
  writing := Written
|}.

(** A tracker whose issue list cannot be read. *)
Definition unlisted : Script := {|
  sheet := Result (Some example_rows);
  listing := fun _ => server_error;
  posting := fun paper_id => ok_created 1 paper_id;
  writing := Written
|}.

(** A tracker that already has an issue for paper P10. *)
Definition tracking_p10 : Script := {|
  sheet := Result (Some example_rows);
  listing := fun _ => ok_list [{| number := 10; title := "Paper Review: P10" |}];
  posting := fun paper_id => ok_created 11 paper_id;
  writing := Written
|}.

(** A spreadsheet that cannot be read. *)
Definition unreachable : Script := {|
  sheet := HttpError;
  listing := fun _ => ok_list [];
  posting := fun paper_id => ok_created 1 paper_id;
  writing := Written
|}.

Definition fresh : World unit := {| remote := tt; disk := Missing |}.

(** A state file left by an earlier run that processed paper P0. *)
Definition seeded : World unit :=
  {| remote := tt; disk := Json {[ "processed_paper_ids" := ["P0"] ]} |}.
Definition ready : SheetMonitor := {| sheets_service := Some tt |}.
Definition uninitialised : SheetMonitor := {| sheets_service := None |}.

(** ** More ways to read a trace *)

(** [e] is a call after which the loop adds the id it is about to
    [processed_ids]. *)
Definition is_mark (e : Event) : bool :=
  match e with
  | HttpGet p r => check_verdict p r
  | HttpPost _ r => create_verdict r
  | _ => false
  end.

Definition is_write (e : Event) : bool :=
  match e with FileWrite _ _ => true | _ => false end.

(** The paper ids of the existence checks of a trace, in order. *)
Definition checked (t : list Event) : list string :=
  omap (fun e => match e with HttpGet p _ => Some p | _ => None end) t.

(** The paper ids of the create requests of a trace, in order. *)
Definition attempted (t : list Event) : list string :=
  omap (fun e => match e with HttpPost p _ => Some p | _ => None end) t.

(** Every create request of [t] comes right after an existence check of the
    same id that found nothing, with only printed lines in between. *)
Definition guarded (t : list Event) : Prop :=
  forall t1 x r t2, t = t1 ++ HttpPost x r :: t2 ->
    exists t0 r0 ps,
      t1 = t0 ++ HttpGet x r0 :: ps /\ Forall is_print ps /\
      check_verdict x r0 = false.

(** ** Requests *)

(** The environment variables read by [__init__] and
    [_init_google_sheets]; [os.environ.get] gives [None] for a missing
    one. *)
Record Environ := {
  GOOGLE_SHEET_ID : option string;
  GITHUB_TOKEN : option string;
  GITHUB_REPOSITORY : option string;
  GOOGLE_SERVICE_ACCOUNT_KEY : option string
}.

(** [f"{v}"] for a value read with [os.environ.get]. *)
Definition fmt (v : option string) : string := default "None" v.

(** The double quote character, as a string. *)
Definition dquote : string := String (ascii_of_nat 34) EmptyString.

(** [f"https://api.github.com/repos/{self.github_repo}/issues"] *)
Definition issues_url (env : Environ) : string :=
  "https://api.github.com/repos/" +:+ fmt (GITHUB_REPOSITORY env) +:+ "/issues".

Record PostRequest := {
  post_url : string;
  post_headers : list (string * string);
  post_title : string;
  post_body : string;
  post_labels : list string
}.

Record GetRequest := {
  get_url : string;
  get_headers : list (string * string);
  get_params : list (string * string)
}.

(** [f'Paper Review: {paper_id}'] *)
Definition issue_title (paper_id : string) : string := "Paper Review: " +:+ paper_id.

(** The body template of [_create_github_issue]; [now] is
    [datetime.now().strftime('%Y-%m-%d %H:%M:%S')]. *)
Definition issue_body (paper_id now : string) : string :=
  "## Paper Review Request

**Paper ID:** " +:+ paper_id +:+ "

**Date Added:** " +:+ now +:+ "

### Tasks
- [ ] Review paper content
- [ ] Analyze methodology
- [ ] Check results and conclusions
- [ ] Prepare review summary

### Notes
This issue was automatically created from Google Sheet monitoring.
".

(** [url], [headers] and [data] of [_create_github_issue]. *)
Definition create_request (env : Environ) (paper_id now : string) : PostRequest := {|
  post_url := issues_url env;
  post_headers :=
    [("Authorization", "token " +:+ fmt (GITHUB_TOKEN env));
     ("Accept", "application/vnd.github.v3+json");
     ("Content-Type", "application/json")];
  post_title := issue_title paper_id;
  post_body := issue_body paper_id now;
  post_labels := ["paper-review"; "automated"]
|}.

(** [url], [headers] and [params] of [_check_existing_issues]. *)
Definition check_request (env : Environ) (paper_id : string) : GetRequest := {|
  get_url := issues_url env;
  get_headers :=
    [("Authorization", "token " +:+ fmt (GITHUB_TOKEN env));
     ("Accept", "application/vnd.github.v3+json")];
  get_params :=
    [("state", "all");
     ("labels", "paper-review");
     ("search",
      "repo:" +:+ fmt (GITHUB_REPOSITORY env) +:+ " " +:+ dquote +:+ paper_id +:+ dquote)]
|}.

(** The libraries under the script, over a world state [R]:
    - [build_service key]: [base64.b64decode(key).decode('utf-8')],
      [json.loads], [Credentials.from_service_account_info] and [build];
      [None] when one of them raises;
    - [values_get sheet_id range]: [spreadsheets().values().get(...).execute()];
    - [strftime_now]: [datetime.now().strftime(...)];
    - [send_post], [send_get]: [requests.post], [requests.get];
    - [write_json]: [open(state_file, 'w')] and [json.dump]. *)
Class Services (R : Type) := {
  build_service : string -> R -> option unit * R;
  values_get : option string -> string -> R -> SheetsResult * R;
  strftime_now : R -> string * R;
  send_post : PostRequest -> R -> HttpResult Issue * R;
  send_get : GetRequest -> R -> HttpResult (list Issue) * R;
  write_json : R -> WriteResult * R
}.

(** The calls of the methods, with the requests they build. *)
Definition outside_of {R : Type} {S : Services R} (env : Environ) : Outside R := {|
  sheets_execute := values_get (GOOGLE_SHEET_ID env) "A:A";
  requests_get := fun paper_id x => send_get (check_request env paper_id) x;
  requests_post := fun paper_id x =>
    let '(now, x1) := strftime_now x in
    send_post (create_request env paper_id now) x1;
  file_write := write_json
|}.

(** The line [_init_google_sheets] prints when it fails. *)
Inductive InitMsg := MsgErrorInitializing.

(** [_init_google_sheets]: with the key variable unset, [b64decode(None)]
    raises [TypeError]; every exception is caught, printed and turned into
    [None]. *)
Definition _init_google_sheets {R : Type} {S : Services R} (env : Environ)
  : R -> option unit * R * list InitMsg := fun x =>
  match GOOGLE_SERVICE_ACCOUNT_KEY env with
  | None => (None, x, [MsgErrorInitializing])
  | Some key =>
      match build_service key x with
      | (Some service, x') => (Some service, x', [])
      | (None, x') => (None, x', [MsgErrorInitializing])
      end
  end.

(** [SheetMonitor()] *)
Definition __init__ {R : Type} {S : Services R} (env : Environ)
  : R -> SheetMonitor * R * list InitMsg := fun x =>
  let '(service, x', ms) := _init_google_sheets env x in
  ({| sheets_service := service |}, x', ms).

(** The [__main__] block: [monitor = SheetMonitor(); monitor.run()].  The
    result is what [__init__] printed, then what [run] did. *)
Definition main {R : Type} {S : Services R} (env : Environ) (w : World R)
  : list InitMsg * (Outcome unit * World R * list Event) :=
  let '(self, x, ms) := __init__ env (remote w) in
  (ms, run (O := outside_of env) self {| remote := x; disk := disk w |}).

(** ** A tracker that keeps what it is sent

    An assumption about the world, not part of the script: the tracker
    keeps the issues that carry the label [paper-review], answers every
    list query with all of them, and answers every create request with 201
    and the new issue.  The spreadsheet holds [rows]; the state file can
    always be written. *)
Definition keeping_tracker (rows : list row) : Services (list Issue) := {|
  build_service := fun _ issues => (Some tt, issues);
  values_get := fun _ _ issues => (Result (Some rows), issues);
  strftime_now := fun issues => ("2024-01-01 00:00:00", issues);
  send_post := fun req issues =>
    let issue := {| number := Z.of_nat (Datatypes.S (length issues));
                    title := post_title req |} in
    (Responded {| status_code := 201; text := ""; json := Some issue |},
     if decide ("paper-review" ∈ post_labels req) then issues ++ [issue] else issues);
  send_get := fun _ issues => (ok_list issues, issues);
  write_json := fun issues => (Written, issues)
|}.

(** Some issue of the list has a title in which [x] occurs. *)
Definition covered (issues : list Issue) (x : string) : Prop :=
  exists issue, issue ∈ issues /\ occurs_in x (title issue).

(** A state that holds another key besides the processed ids, and a state
    file with it. *)
Definition annotated_state : gmap string (list string) :=
  <["owner" := ["lab"]]> {[ "processed_paper_ids" := ["P0"] ]}.

Definition annotated : World unit := {| remote := tt; disk := Json annotated_state |}.

(** A tracker that has no issues, refuses the create for "P1" and accepts
    every other one. *)
Definition half_refusing : Script := {|
  sheet := Result (Some example_rows);
  listing := fun _ => ok_list [];
  posting := fun paper_id =>
    if String.eqb paper_id "P1" then server_error else ok_created 2 paper_id;
  writing := Written
|}.

(** A spreadsheet client that fails with something else than [HttpError]. *)
Definition broken_transport : Script := {|
  sheet := OtherError;
  listing := fun _ => ok_list [];
  posting := fun paper_id => ok_created 1 paper_id;
  writing := Written
|}.

(** A 201 answer whose body cannot be read as an issue. *)
Definition created_unread : HttpResult Issue :=
  Responded {| status_code := 201; text := ""; json := None |}.

(** A tracker that has no issues in its list and answers every create
    request with 201 and a body that cannot be read. *)
Definition bodiless : Script := {|
  sheet := Result (Some example_rows);
  listing := fun _ => ok_list [];
  posting := fun _ => created_unread;
  writing := Written
|}.

(** The default state with [ids] as processed ids, as [run] writes it. *)
Definition state_with (ids : list string) : gmap string (list string) :=
  <["processed_paper_ids" := elements (list_to_set ids : gset string)]> default_state.

(** No environment variable is set. *)
Definition empty_environ : Environ := {|
  GOOGLE_SHEET_ID := None;
  GITHUB_TOKEN := None;
  GITHUB_REPOSITORY := None;
  GOOGLE_SERVICE_ACCOUNT_KEY := None
|}.

Definition full_environ : Environ := {|
  GOOGLE_SHEET_ID := Some "sheet";
  GITHUB_TOKEN := Some "token";
  GITHUB_REPOSITORY := Some "lab/papers";
  GOOGLE_SERVICE_ACCOUNT_KEY := Some "a2V5"
|}.

(** ** Tactics for concrete traces *)

(** Case analysis on [e ∈ l] for a trace [l] that evaluates to a list of
    known events. *)
Ltac trace_cases H :=
  vm_compute in H;
  repeat (apply elem_of_cons in H as [H | H]; [simplify_eq |]);
  try (by apply elem_of_nil in H).

Ltac in_trace :=
  vm_compute; repeat first [apply list_elem_of_here | apply list_elem_of_further].

(** * Properties *)

(** ** Strings *)

Lemma prefix_occurs (sub s : string) :
  String.prefix sub s = true <-> exists post, s = sub +:+ post.
Proof.
  revert s. induction sub as [|c sub IH]; intros s; simpl.
  - split; [intros _; exists s; reflexivity | by destruct s].
  - destruct s as [|d s]; simpl.
    + split; [done | intros [post H]; discriminate H].
    + destruct (Ascii.ascii_dec c d) as [->|Hne].
      * rewrite IH. split; intros [post H]; exists post.
        -- by rewrite H.
        -- by injection H.
      * split; [done | intros [post H]; injection H; congruence].
Qed.

Lemma contains_occurs (sub s : string) :
  Str.contains sub s = true <-> occurs_in sub s.
Proof.
  induction s as [|c s IH]; cbn [Str.contains].
  - rewrite orb_false_r, prefix_occurs. split.
    + intros [post H]. by exists "", post.
    + intros [pre [post H]]. destruct pre; [by exists post | discriminate H].
  - rewrite orb_true_iff, IH, prefix_occurs. split.
    + intros [[post H] | [pre [post H]]].
      * by exists "", post.
      * exists (String c pre), post. by rewrite H.
    + intros [pre [post H]]. destruct pre as [|d pre].
      * left. by exists post.
      * right. exists pre, post. by injection H.
Qed.

Lemma scan_issues_spec (paper_id : string) (issues : list Issue) :
  scan_issues paper_id issues = true <->
  exists issue, issue ∈ issues /\ occurs_in paper_id (title issue).
Proof.
  induction issues as [|i issues IH]; simpl.
  - split; [done | intros [i [H _]]; by apply elem_of_nil in H].
  - destruct (Str.contains paper_id (title i)) eqn:E.
    + split; [intros _ | done]. exists i. split; [left | by apply contains_occurs].
    + rewrite IH. split.
      * intros [j [Hj Ho]]. exists j. split; [by right | done].
      * intros [j [Hj Ho]]. apply elem_of_cons in Hj as [-> | Hj].
        -- apply contains_occurs in Ho. congruence.
        -- by exists j.
Qed.

(** ** Fetch *)

Lemma fold_append_row (rows : list row) (acc : list string) :
  fold_left append_row rows acc =
  acc ++ List.filter Str.truthy (Str.strip <$> omap head rows).
Proof.
  revert acc. induction rows as [|r rows IH]; intros acc; simpl.
  - by rewrite app_nil_r.
  - rewrite IH. destruct r as [|cell r]; simpl; [done |].
    destruct (Str.truthy (Str.strip cell)); [|done].
    by rewrite <- app_assoc.
Qed.

Lemma collect_paper_ids_spec (values : list row) :
  collect_paper_ids values = spec_extract values.
Proof. unfold collect_paper_ids. by rewrite fold_append_row. Qed.

(** ** The methods, call by call *)

Section Effects.
Context {R : Type} {O : Outside R}.

Lemma bind_run {A B} (c : M R A) (k : A -> M R B) (w : World R) :
  bind c k w =
  (value (k (value (c w)) (final (c w))),
   final (k (value (c w)) (final (c w))),
   trace (c w) ++ trace (k (value (c w)) (final (c w)))).
Proof.
  unfold bind, value, final, trace. destruct (c w) as [[a w1] t1]. simpl.
  by destruct (k a w1) as [[b w2] t2].
Qed.

Lemma load_state_final (w : World R) : final (_load_state w) = w.
Proof. unfold _load_state. by destruct (disk w). Qed.

Lemma load_state_prints (w : World R) : Forall is_print (trace (_load_state w)).
Proof. unfold _load_state. destruct (disk w); repeat constructor. Qed.

Lemma check_shape (p : string) (w : World R) :
  exists ps, Forall is_print ps /\
    _check_existing_issues p w =
    (check_verdict p (requests_get p (remote w)).1,
     {| remote := (requests_get p (remote w)).2; disk := disk w |},
     HttpGet p (requests_get p (remote w)).1 :: ps).
Proof.
  unfold _check_existing_issues, bind, http_get, print, ret.
  destruct (requests_get p (remote w)) as [r x]; simpl.
  destruct r as [|response]; simpl.
  - exists [Print MsgCheckError]. split; [repeat constructor | done].
  - destruct (status_code response =? 200); simpl.
    + destruct (json response); simpl.
      * exists []. split; [constructor | done].
      * exists [Print MsgCheckError]. split; [repeat constructor | done].
    + exists []. split; [constructor | done].
Qed.

Lemma create_shape (p : string) (w : World R) :
  exists ps, Forall is_print ps /\
    _create_github_issue p w =
    (create_verdict (requests_post p (remote w)).1,
     {| remote := (requests_post p (remote w)).2; disk := disk w |},
     HttpPost p (requests_post p (remote w)).1 :: ps).
Proof.
  unfold _create_github_issue, bind, http_post, print, ret.
  destruct (requests_post p (remote w)) as [r x]; simpl.
  destruct r as [|response]; simpl.
  - eexists. split; [|done]. repeat constructor.
  - destruct (status_code response =? 201); simpl.
    + destruct (json response); simpl; (eexists; split; [|done]; repeat constructor).
    + eexists. split; [|done]. repeat constructor.
Qed.

Lemma check_value (p : string) (w : World R) :
  value (_check_existing_issues p w) = check_verdict p (requests_get p (remote w)).1.
Proof. destruct (check_shape p w) as [ps [_ ->]]. done. Qed.

Lemma create_value (p : string) (w : World R) :
  value (_create_github_issue p w) = create_verdict (requests_post p (remote w)).1.
Proof. destruct (create_shape p w) as [ps [_ ->]]. done. Qed.

Lemma process_paper_id_step (p : string) (S : gset string) (n : nat) (w : World R) :
  Step p S n (value (process_paper_id p (S, n) w)) (trace (process_paper_id p (S, n) w))
  /\ disk (final (process_paper_id p (S, n) w)) = disk w.
Proof.
  unfold process_paper_id. destruct (decide (p ∈ S)) as [Hin|Hout].
  - split; [by constructor | done].
  - rewrite bind_run.
    destruct (check_shape p w) as [ps [Hps ->]]. unfold value at 2 4 6, final at 2 4 6. simpl.
    destruct (check_verdict p (requests_get p (remote w)).1) eqn:Hcheck; simpl.
    + split; [|done]. by apply step_exists; [| |apply Forall_app; split; [|repeat constructor]].
    + rewrite bind_run.
      match goal with |- context [_create_github_issue p ?w1] =>
        destruct (create_shape p w1) as [ps' [Hps' ->]] end.
      simpl. destruct (create_verdict _) eqn:Hcreate; simpl; (split; [|done]).
      * rewrite app_nil_r. by eapply step_created.
      * rewrite app_nil_r. by eapply step_failed.
Qed.

Lemma for_each_loop (ids : list string) (acc : gset string * nat) (w : World R) :
  Loop ids acc (value (for_each ids acc w)) (trace (for_each ids acc w))
  /\ disk (final (for_each ids acc w)) = disk w.
Proof.
  revert acc w. induction ids as [|p ids IH]; intros [S n] w; simpl.
  - split; [constructor | done].
  - rewrite bind_run.
    destruct (process_paper_id_step p S n w) as [Hstep Hdisk].
    destruct (IH (value (process_paper_id p (S, n) w))
                 (final (process_paper_id p (S, n) w))) as [Hloop Hdisk'].
    split.
    + by eapply loop_cons.
    + exact (eq_trans Hdisk' Hdisk).
Qed.

End Effects.

(** ** Traces of the loop *)

Lemma print_unmarked (x : string) (e : Event) : is_print e -> ~ marks x e.
Proof. destruct e; simpl; tauto. Qed.

Lemma print_untouched (x : string) (e : Event) : is_print e -> ~ touches x e.
Proof. destruct e; simpl; tauto. Qed.

Lemma marks_touches (x : string) (e : Event) : marks x e -> touches x e.
Proof. destruct e; simpl; tauto. Qed.

Lemma prints_unmarked (x : string) (ps : list Event) :
  Forall is_print ps -> ~ Exists (marks x) ps.
Proof.
  intros Hps He. apply Exists_exists in He as [e [Hin Hm]].
  eapply print_unmarked; [|done]. by eapply Forall_forall in Hps.
Qed.

Lemma prints_untouched (x : string) (ps : list Event) :
  Forall is_print ps -> Forall (fun e => ~ touches x e) ps.
Proof.
  intros Hps. eapply Forall_impl; [done |]. intros e. apply print_untouched.
Qed.

Lemma prints_not_created (ps : list Event) :
  Forall is_print ps -> List.filter created ps = [].
Proof.
  induction 1 as [|e ps He _ IH]; [done |]. simpl. by destruct e.
Qed.

Lemma prints_no_get (x : string) (r : HttpResult (list Issue)) (ps : list Event) :
  Forall is_print ps -> HttpGet x r ∉ ps.
Proof. intros Hps Hin. by eapply Forall_forall in Hps; [|done]. Qed.

Lemma settled_app (x : string) (t1 t2 : list Event) :
  settled x t1 -> settled x t2 ->
  (Exists (marks x) t1 -> Forall (fun e => ~ touches x e) t2) ->
  settled x (t1 ++ t2).
Proof.
  induction t1 as [|e t1 IH]; simpl; [done |].
  intros [He Ht1] Ht2 Hm. split.
  - intros Hme. apply Forall_app. split; [by apply He |].
    apply Hm. by left.
  - apply IH; [done | done |]. intros Hex. apply Hm. by right.
Qed.

Lemma settled_prints (x : string) (ps : list Event) :
  Forall is_print ps -> settled x ps.
Proof.
  induction 1 as [|e ps He _ IH]; simpl; [done |].
  split; [|done]. intros Hm. by apply print_unmarked in Hm.
Qed.

Lemma settled_created_once (x : string) (t : list Event) :
  settled x t -> (length (List.filter (created_for x) t) <= 1)%nat.
Proof.
  induction t as [|e t IH]; simpl; [lia |].
  intros [He Ht]. destruct (created_for x e) eqn:E; [|by apply IH].
  assert (Hm : marks x e).
  { destruct e; simpl in *; try done.
    apply andb_true_iff in E as [E1 E2]. by apply String.eqb_eq in E1. }
  specialize (He Hm). simpl.
  assert (Hnone : List.filter (created_for x) t = []).
  { clear -He. induction He as [|e' t He' _ IH]; [done |]. simpl.
    destruct (created_for x e') eqn:E'; [|done]. exfalso. apply He'.
    destruct e'; simpl in *; try done.
    apply andb_true_iff in E' as [E1 _]. by apply String.eqb_eq in E1. }
  rewrite Hnone. simpl. lia.
Qed.

Section StepFacts.
Context (p : string) (S : gset string) (n : nat).
Context (S' : gset string) (n' : nat) (t : list Event).

Lemma step_grows : Step p S n (S', n') t -> S ⊆ S'.
Proof.
  intros Hstep. inversion Hstep; subst; [done | | | done];
    intros x Hx; apply elem_of_union; by right.
Qed.

Lemma step_adds (x : string) : Step p S n (S', n') t -> x ∈ S' -> x ∈ S \/ x = p.
Proof.
  intros Hstep. inversion Hstep; subst; auto;
    rewrite elem_of_union, elem_of_singleton; tauto.
Qed.

Lemma step_seen (x : string) :
  Step p S n (S', n') t -> x ∈ S' <-> x ∈ S \/ Exists (marks x) t.
Proof.
  intros Hstep.
  inversion Hstep as [Hin | r ps Hout Hc Hps | r r' ps ps' Hout Hc Hc' Hps Hps'
                      | r r' ps ps' Hout Hc Hc' Hps Hps']; subst;
    rewrite ?Exists_cons, ?Exists_app, ?Exists_cons, ?Exists_nil; simpl;
    rewrite ?elem_of_union, ?elem_of_singleton.
  - tauto.
  - pose proof (prints_unmarked x ps Hps). split.
    + intros [-> | ?]; [right; by left | by left].
    + intros [? | [[<- _] | ?]]; [by right | by left | done].
  - pose proof (prints_unmarked x ps Hps). pose proof (prints_unmarked x ps' Hps').
    split.
    + intros [-> | ?]; [right; right; right; by left | by left].
    + intros [? | [[<- _] | [? | [[<- _] | ?]]]];
        [by right | by left | done | by left | done].
  - pose proof (prints_unmarked x ps Hps). pose proof (prints_unmarked x ps' Hps').
    split; [tauto |]. intros [?|[[_ ?]|[?|[[_ ?]|?]]]]; try done; congruence.
Qed.

Lemma step_touches (x : string) :
  Step p S n (S', n') t -> Forall (fun e => touches x e -> x = p /\ p ∉ S) t.
Proof.
  intros Hstep.
  inversion Hstep; subst; rewrite ?Forall_cons, ?Forall_app, ?Forall_cons;
    repeat split; simpl; try done;
    (eapply Forall_impl; [by apply (prints_untouched x) | done]).
Qed.

Lemma step_skips : Step p S n (S', n') t -> p ∈ S -> S' = S /\ n' = n /\ t = [].
Proof. intros Hstep. inversion Hstep; subst; done. Qed.

Lemma step_checks : Step p S n (S', n') t -> p ∉ S -> exists r, HttpGet p r ∈ t.
Proof. intros Hstep. inversion Hstep; subst; try done; intros _; eexists; left. Qed.

Lemma step_creates_if_absent (x : string) (r : HttpResult (list Issue)) :
  Step p S n (S', n') t -> HttpGet x r ∈ t -> check_verdict x r = false -> exists r', HttpPost x r' ∈ t.
Proof.
  intros Hstep.
  inversion Hstep as [Hin | r0 ps Hout Hc Hps | r0 r' ps ps' Hout Hc Hc' Hps Hps'
                      | r0 r' ps ps' Hout Hc Hc' Hps Hps']; subst;
    rewrite ?elem_of_cons, ?elem_of_app, ?elem_of_cons.
  - by intros ?%elem_of_nil.
  - intros [[= -> ->] | Hin]; [congruence |]. by apply prints_no_get in Hin.
  - intros [[= -> ->] | [Hin | [[=] | Hin]]] _;
      try (by apply prints_no_get in Hin).
    exists r'. set_solver.
  - intros [[= -> ->] | [Hin | [[=] | Hin]]] _;
      try (by apply prints_no_get in Hin).
    exists r'. set_solver.
Qed.

Lemma step_counts : Step p S n (S', n') t -> n' = (n + length (List.filter created t))%nat.
Proof.
  intros Hstep.
  inversion Hstep; subst; simpl;
    rewrite ?List.filter_app; simpl; rewrite ?prints_not_created by done;
    try match goal with H : create_verdict _ = _ |- _ => rewrite H end;
    simpl; lia.
Qed.

Lemma step_settled (x : string) : Step p S n (S', n') t -> settled x t.
Proof.
  intros Hstep.
  inversion Hstep as [Hin | r ps Hout Hc Hps | r r' ps ps' Hout Hc Hc' Hps Hps'
                      | r r' ps ps' Hout Hc Hc' Hps Hps']; subst; simpl.
  - done.
  - split; [intros _; by apply prints_untouched | by apply settled_prints].
  - split; [intros [_ ?]; congruence |].
    apply settled_app; [by apply settled_prints | |].
    + simpl. split; [intros _; by apply prints_untouched | by apply settled_prints].
    + intros Hex. by apply prints_unmarked in Hex.
  - split; [intros [_ ?]; congruence |].
    apply settled_app; [by apply settled_prints | |].
    + simpl. split; [intros _; by apply prints_untouched | by apply settled_prints].
    + intros Hex. by apply prints_unmarked in Hex.
Qed.

Lemma step_events :
  Step p S n (S', n') t -> Forall (fun e => is_print e \/ touches p e) t.
Proof.
  intros Hstep.
  inversion Hstep; subst; rewrite ?Forall_cons, ?Forall_app, ?Forall_cons;
    repeat split; simpl; auto;
    (eapply Forall_impl; [done | auto]).
Qed.

Lemma step_all_created :
  Step p S n (S', n') t -> Forall (fun e => touches p e -> marks p e \/ exists r, e = HttpGet p r) t -> p ∈ S'.
Proof.
  intros Hstep.
  inversion Hstep as [Hin | r ps Hout Hc Hps | r r' ps ps' Hout Hc Hc' Hps Hps'
                      | r r' ps ps' Hout Hc Hc' Hps Hps']; subst;
    try set_solver.
  rewrite Forall_cons, Forall_app, Forall_cons. intros (_ & _ & Hpost & _).
  simpl in Hpost. destruct (Hpost eq_refl) as [[_ ?] | [r0 [=]]]. congruence.
Qed.

End StepFacts.

Lemma loop_grows ids acc acc' t : Loop ids acc acc' t -> acc.1 ⊆ acc'.1.
Proof.
  induction 1 as [acc | p ids [S n] [S' n'] acc'' t1 t2 Hstep _ IH]; [done |].
  apply step_grows in Hstep. simpl in *. by etrans.
Qed.

Lemma loop_seen x ids acc acc' t :
  Loop ids acc acc' t -> x ∈ acc'.1 <-> x ∈ acc.1 \/ Exists (marks x) t.
Proof.
  induction 1 as [acc | p ids [S n] [S' n'] acc'' t1 t2 Hstep _ IH].
  - rewrite Exists_nil. tauto.
  - rewrite IH, Exists_app. simpl in *. rewrite (step_seen _ _ _ _ _ _ x Hstep). tauto.
Qed.

Lemma loop_touches x ids acc acc' t :
  Loop ids acc acc' t -> Forall (fun e => touches x e -> x ∈ ids /\ x ∉ acc.1) t.
Proof.
  induction 1 as [acc | p ids [S n] [S' n'] acc'' t1 t2 Hstep _ IH]; [done |].
  apply Forall_app. simpl in *. split.
  - eapply Forall_impl; [by apply (step_touches _ _ _ _ _ _ x Hstep) |].
    intros e He Ht. destruct (He Ht) as [-> Hout]. split; [left | done].
  - eapply Forall_impl; [done |]. intros e He Ht. destruct (He Ht) as [Hin Hout].
    split; [by right |]. intros HS. apply Hout. by apply (step_grows _ _ _ _ _ _ Hstep).
Qed.

Lemma loop_events ids acc acc' t :
  Loop ids acc acc' t -> Forall (fun e => is_print e \/ exists x, touches x e) t.
Proof.
  induction 1 as [acc | p ids [S n] [S' n'] acc'' t1 t2 Hstep _ IH]; [done |].
  apply Forall_app. split; [|done].
  eapply Forall_impl; [by apply (step_events _ _ _ _ _ _ Hstep) |].
  intros e [He | He]; [by left | right; by exists p].
Qed.

Lemma loop_skips ids acc acc' t :
  Loop ids acc acc' t -> (forall x, x ∈ ids -> x ∈ acc.1) -> acc' = acc /\ t = [].
Proof.
  induction 1 as [acc | p ids [S n] [S' n'] acc'' t1 t2 Hstep _ IH]; [done |].
  intros Hall. simpl in *.
  destruct (step_skips _ _ _ _ _ _ Hstep) as (-> & -> & ->); [apply Hall; left |].
  destruct IH as [-> ->]; [|done]. intros x Hx. apply Hall. by right.
Qed.

Lemma loop_checks x ids acc acc' t :
  Loop ids acc acc' t -> x ∈ ids -> x ∉ acc.1 -> exists r, HttpGet x r ∈ t.
Proof.
  induction 1 as [acc | p ids [S n] [S' n'] acc'' t1 t2 Hstep _ IH].
  - by intros ?%elem_of_nil.
  - simpl in *. intros Hin Hout. destruct (decide (x = p)) as [-> | Hne].
    + destruct (step_checks _ _ _ _ _ _ Hstep Hout) as [r Hr].
      exists r. apply elem_of_app. by left.
    + apply elem_of_cons in Hin as [-> | Hin]; [done |].
      destruct IH as [r Hr]; [done | |].
      * intros HS'. by destruct (step_adds _ _ _ _ _ _ x Hstep HS').
      * exists r. apply elem_of_app. by right.
Qed.

Lemma loop_creates_if_absent x r ids acc acc' t :
  Loop ids acc acc' t ->
  HttpGet x r ∈ t -> check_verdict x r = false -> exists r', HttpPost x r' ∈ t.
Proof.
  induction 1 as [acc | p ids [S n] [S' n'] acc'' t1 t2 Hstep _ IH].
  - by intros ?%elem_of_nil.
  - intros [Hin | Hin]%elem_of_app Hc.
    + destruct (step_creates_if_absent _ _ _ _ _ _ x r Hstep Hin Hc) as [r' Hr'].
      exists r'. apply elem_of_app. by left.
    + destruct (IH Hin Hc) as [r' Hr']. exists r'. apply elem_of_app. by right.
Qed.

Lemma loop_counts ids acc acc' t :
  Loop ids acc acc' t -> acc'.2 = (acc.2 + length (List.filter created t))%nat.
Proof.
  induction 1 as [acc | p ids [S n] [S' n'] acc'' t1 t2 Hstep _ IH]; simpl in *.
  - lia.
  - rewrite List.filter_app, length_app, IH, (step_counts _ _ _ _ _ _ Hstep). lia.
Qed.

Lemma loop_settled x ids acc acc' t : Loop ids acc acc' t -> settled x t.
Proof.
  induction 1 as [acc | p ids [S n] [S' n'] acc'' t1 t2 Hstep Hloop IH]; [done |].
  apply settled_app; [by apply (step_settled _ _ _ _ _ _ x Hstep) | done |].
  intros Hex. eapply Forall_impl; [by apply (loop_touches x _ _ _ _ Hloop) |].
  intros e He Ht. destruct (He Ht) as [_ Hout]. apply Hout. simpl.
  apply (step_seen _ _ _ _ _ _ x Hstep). by right.
Qed.

Lemma loop_all_created ids acc acc' t :
  Loop ids acc acc' t -> Forall post_ok t -> forall x, x ∈ ids -> x ∈ acc'.1.
Proof.
  induction 1 as [acc | p ids [S n] [S' n'] acc'' t1 t2 Hstep Hloop IH].
  - by intros _ x ?%elem_of_nil.
  - intros [Hok1 Hok2]%Forall_app x [-> | Hin]%elem_of_cons; [|by apply IH].
    apply (loop_grows _ _ _ _ Hloop). simpl.
    apply (step_all_created _ _ _ _ _ _ Hstep).
    eapply Forall_impl; [done |]. intros [] Hok Ht; simpl in *; try done.
    + right. subst. by eexists.
    + by left.
Qed.


(** ** One run *)

Lemma seen_of_saved (S : gset string) (state : gmap string (list string)) :
  seen_of (<["processed_paper_ids" := elements S]> state) = S.
Proof.
  unfold seen_of. rewrite lookup_insert_eq. simpl. apply list_to_set_elements_L.
Qed.

Lemma seen_of_default : seen_of default_state = ∅.
Proof. done. Qed.

Section Runs.
Context {R : Type} {O : Outside R}.
Local Arguments for_each : simpl never.

Lemma load_state_plain (w : World R) : Forall plain (trace (_load_state w)).
Proof. unfold _load_state. destruct (disk w); repeat constructor. Qed.

Lemma load_state_disk (w w' : World R) :
  disk w' = disk w -> value (_load_state w') = value (_load_state w).
Proof. unfold _load_state. intros ->. by destruct (disk w). Qed.

Lemma get_sheet_data_spec (w : World R) :
  Forall plain (trace (_get_sheet_data w)) /\
  disk (final (_get_sheet_data w)) = disk w /\
  value (_get_sheet_data w) =
    match (sheets_execute (remote w)).1 with
    | Result (Some (r :: rows)) => Return (collect_paper_ids (r :: rows))
    | Result _ | HttpError => Return []
    | OtherError => Raise
    end.
Proof.
  unfold _get_sheet_data, bind, call_sheets, print, ret.
  destruct (sheets_execute (remote w)) as [[| |[[|r rows]|]] x]; simpl;
    repeat split; repeat constructor.
Qed.

Lemma save_state_spec (state : gmap string (list string)) (w : World R) :
  exists r ps, Forall plain ps /\
    trace (_save_state state w) = FileWrite state r :: ps /\
    disk (final (_save_state state w)) =
      match r with
      | Written => Json state
      | OpenFailed => disk w
      | DumpFailed => Unreadable
      end.
Proof.
  unfold _save_state. destruct (file_write (remote w)) as [[] x]; simpl;
    eexists _, _; (split; [|split; reflexivity]); repeat constructor.
Qed.

(** The early exits of [run]. *)
Lemma run_aborts (self : SheetMonitor) (w : World R) :
  sheets_service self = None \/ value (_get_sheet_data w) = Return [] \/
  value (_get_sheet_data w) = Raise ->
  Forall plain (trace (run self w)) /\ disk (final (run self w)) = disk w.
Proof.
  intros Hcase. unfold run. rewrite bind_run. unfold print at 1. simpl.
  destruct (sheets_service self) as [[]|].
  - rewrite !bind_run, load_state_final.
    destruct (get_sheet_data_spec w) as (Hplain & Hdisk & _).
    pose proof (load_state_plain w) as Hload.
    destruct Hcase as [[=] | [E | E]]; rewrite E; simpl; (split; [|done]);
      repeat first [done | apply Forall_nil | apply Forall_cons; split
                   | apply Forall_app; split].
  - split; [|done]. repeat constructor.
Qed.

Lemma run_uninitialised (self : SheetMonitor) (w : World R) :
  sheets_service self = None ->
  run self w = (Return tt, w, [Print MsgStarting; Print MsgInitFailed]).
Proof. intros Hself. unfold run, bind, print, ret. by rewrite Hself. Qed.

Lemma run_empty (self : SheetMonitor) (w : World R) :
  sheets_service self = Some tt -> value (_get_sheet_data w) = Return [] ->
  value (run self w) = Return tt /\
  trace (run self w) =
    Print MsgStarting :: trace (_load_state w) ++ trace (_get_sheet_data w)
    ++ [Print MsgNoPaperIds].
Proof.
  intros Hself Hids. unfold run. rewrite Hself, bind_run. unfold print at 1. simpl.
  rewrite !bind_run, load_state_final, Hids. by rewrite !bind_run.
Qed.

(** The path of [run] that reaches the loop. *)
Lemma run_completes (self : SheetMonitor) (w : World R) (ids : list string) :
  sheets_service self = Some tt -> value (_get_sheet_data w) = Return ids ->
  ids <> [] ->
  exists pre acc lt r post,
    Forall plain pre /\ Forall plain post /\
    Loop ids (seen_of (value (_load_state w)), 0%nat) acc lt /\
    trace (run self w) =
      pre ++ Print (MsgFound (length ids)) :: lt ++
      FileWrite (<["processed_paper_ids" := elements acc.1]> (value (_load_state w))) r
      :: post ++ [Print (MsgComplete acc.2)] /\
    value (run self w) = Return tt /\
    disk (final (run self w)) =
      match r with
      | Written =>
          Json (<["processed_paper_ids" := elements acc.1]> (value (_load_state w)))
      | OpenFailed => disk w
      | DumpFailed => Unreadable
      end.
Proof.
  intros Hself Hids Hne. unfold run. rewrite Hself, bind_run. unfold print at 1. simpl.
  rewrite !bind_run, load_state_final, Hids.
  destruct (get_sheet_data_spec w) as (Hplain & Hdisk & _).
  pose proof (load_state_plain w) as Hload.
  destruct ids as [|i ids]; [done |]. rewrite !bind_run. unfold print. simpl.
  set (st0 := value (_load_state w)).
  set (w1 := final (_get_sheet_data w)).
  destruct (for_each_loop (i :: ids) (seen_of st0, 0%nat) w1) as [Hloop Hdisk1].
  set (lp := for_each (i :: ids) (seen_of st0, 0%nat) w1) in *.
  destruct (save_state_spec (<["processed_paper_ids" := elements (value lp).1]> st0)
              (final lp)) as (r & post & Hpost & Htrace & Hsave).
  exists (Print MsgStarting :: trace (_load_state w) ++ trace (_get_sheet_data w)),
    (value lp), (trace lp), r, post.
  split; [constructor; [done | by apply Forall_app] |].
  split; [done |]. split; [done |]. split; [|split; [done |]].
  - rewrite Htrace. simpl. by rewrite <- !app_assoc.
  - rewrite Hsave. destruct r; [done | | done]. rewrite Hdisk1. exact Hdisk.
Qed.

End Runs.

(** ** The events around the loop *)

Lemma plain_no_call (e : Event) : plain e -> no_call e.
Proof. destruct e; simpl; tauto. Qed.

Lemma no_call_untouched (x : string) (e : Event) : no_call e -> ~ touches x e.
Proof. destruct e; simpl; tauto. Qed.

Lemma no_call_unmarked (x : string) (e : Event) : no_call e -> ~ marks x e.
Proof. intros He Hm. by apply (no_call_untouched x e He), marks_touches. Qed.

Lemma no_calls_unmarked (x : string) (l : list Event) :
  Forall no_call l -> ~ Exists (marks x) l.
Proof.
  intros Hl (e & Hin & Hm)%Exists_exists.
  eapply Forall_forall in Hl; [|done]. by apply (no_call_unmarked x) in Hl.
Qed.

Lemma no_calls_untouched (x : string) (e : Event) (l : list Event) :
  Forall no_call l -> touches x e -> e ∉ l.
Proof.
  intros Hl Ht Hin.
  eapply Forall_forall in Hl; [|done]. by apply (no_call_untouched x) in Hl.
Qed.

Lemma no_call_not_created (l : list Event) :
  Forall no_call l -> List.filter created l = [].
Proof. induction 1 as [|e l He _ IH]; [done |]. simpl. by destruct e. Qed.

Lemma no_call_not_created_for (x : string) (l : list Event) :
  Forall no_call l -> List.filter (created_for x) l = [].
Proof. induction 1 as [|e l He _ IH]; [done |]. simpl. by destruct e. Qed.

Lemma settled_no_call_l (x : string) (l t : list Event) :
  Forall no_call l -> settled x t -> settled x (l ++ t).
Proof.
  induction 1 as [|e l He _ IH]; [done |]. intros Ht. simpl.
  split; [|by apply IH]. intros Hm. by apply no_call_unmarked in Hm.
Qed.

Lemma settled_no_call_r (x : string) (l t : list Event) :
  Forall no_call l -> settled x t -> settled x (t ++ l).
Proof.
  intros Hl Ht. apply settled_app; [done | |].
  - rewrite <- (app_nil_r l). by apply settled_no_call_l.
  - intros _. eapply Forall_impl; [done |]. intros e. apply no_call_untouched.
Qed.

Lemma settled_split (x : string) (t t1 t2 : list Event) (e : Event) :
  settled x t -> t = t1 ++ e :: t2 -> marks x e ->
  Forall (fun e' => ~ touches x e') t2.
Proof.
  intros Ht ->. induction t1 as [|e1 t1 IH]; simpl in Ht.
  - intros Hm. by apply Ht.
  - apply IH, Ht.
Qed.

Section Frame.
Context (pre lt post : list Event) (k m : nat).
Context (st : gmap string (list string)) (r : WriteResult).
Hypothesis Hpre : Forall plain pre.
Hypothesis Hpost : Forall plain post.

Lemma frame_no_call_l : Forall no_call (pre ++ [Print (MsgFound k)]).
Proof.
  apply Forall_app. split; [|by repeat constructor].
  eapply Forall_impl; [done |]. apply plain_no_call.
Qed.

Lemma frame_no_call_r :
  Forall no_call (FileWrite st r :: post ++ [Print (MsgComplete m)]).
Proof.
  constructor; [done |]. apply Forall_app. split; [|by repeat constructor].
  eapply Forall_impl; [done |]. apply plain_no_call.
Qed.

Lemma frame_eq :
  pre ++ Print (MsgFound k) :: lt ++ FileWrite st r :: post ++ [Print (MsgComplete m)]
  = (pre ++ [Print (MsgFound k)]) ++ lt
    ++ (FileWrite st r :: post ++ [Print (MsgComplete m)]).
Proof. by rewrite <- app_assoc. Qed.

Lemma frame_marks (x : string) :
  Exists (marks x)
    (pre ++ Print (MsgFound k) :: lt ++ FileWrite st r :: post ++ [Print (MsgComplete m)])
  <-> Exists (marks x) lt.
Proof.
  rewrite frame_eq.
  rewrite (Exists_app _ (pre ++ [Print (MsgFound k)])), (Exists_app _ lt).
  pose proof (no_calls_unmarked x _ frame_no_call_l).
  pose proof (no_calls_unmarked x _ frame_no_call_r). tauto.
Qed.

Lemma frame_write (st' : gmap string (list string)) (r' : WriteResult) :
  Forall (fun e => is_print e \/ exists x, touches x e) lt ->
  FileWrite st' r' ∈
    pre ++ Print (MsgFound k) :: lt ++ FileWrite st r :: post ++ [Print (MsgComplete m)] ->
  st' = st /\ r' = r.
Proof.
  intros Hlt. rewrite elem_of_app, elem_of_cons, elem_of_app, elem_of_cons, elem_of_app.
  intros [Hin | [[=] | [Hin | [[= -> ->] | [Hin | Hin]]]]]; [| | done | |].
  - by destruct (proj1 (Forall_forall _ _) Hpre _ Hin).
  - by destruct (proj1 (Forall_forall _ _) Hlt _ Hin) as [? | [x ?]].
  - by destruct (proj1 (Forall_forall _ _) Hpost _ Hin).
  - by apply list_elem_of_singleton in Hin.
Qed.

Lemma frame_created :
  List.filter created
    (pre ++ Print (MsgFound k) :: lt ++ FileWrite st r :: post ++ [Print (MsgComplete m)])
  = List.filter created lt.
Proof.
  rewrite frame_eq.
  rewrite (List.filter_app _ (pre ++ [Print (MsgFound k)])), (List.filter_app _ lt).
  rewrite (no_call_not_created _ frame_no_call_l).
  rewrite (no_call_not_created _ frame_no_call_r). by rewrite app_nil_r.
Qed.

Lemma frame_created_for (x : string) :
  List.filter (created_for x)
    (pre ++ Print (MsgFound k) :: lt ++ FileWrite st r :: post ++ [Print (MsgComplete m)])
  = List.filter (created_for x) lt.
Proof.
  rewrite frame_eq.
  rewrite (List.filter_app _ (pre ++ [Print (MsgFound k)])), (List.filter_app _ lt).
  rewrite (no_call_not_created_for x _ frame_no_call_l).
  rewrite (no_call_not_created_for x _ frame_no_call_r). by rewrite app_nil_r.
Qed.

Lemma frame_settled (x : string) :
  settled x lt ->
  settled x
    (pre ++ Print (MsgFound k) :: lt ++ FileWrite st r :: post ++ [Print (MsgComplete m)]).
Proof.
  intros Hlt. rewrite frame_eq.
  apply settled_no_call_l; [apply frame_no_call_l |].
  apply settled_no_call_r; [apply frame_no_call_r | done].
Qed.

Lemma frame_loop_part (e : Event) :
  e ∈ lt ->
  e ∈ pre ++ Print (MsgFound k) :: lt ++ FileWrite st r :: post ++ [Print (MsgComplete m)].
Proof.
  intros Hin. rewrite frame_eq. apply elem_of_app. right. apply elem_of_app. by left.
Qed.

Lemma frame_call (x : string) (e : Event) :
  touches x e ->
  e ∈ pre ++ Print (MsgFound k) :: lt ++ FileWrite st r :: post ++ [Print (MsgComplete m)] ->
  e ∈ lt.
Proof.
  intros Ht. rewrite frame_eq.
  intros [Hin | [Hin | Hin]%elem_of_app]%elem_of_app; [| done |].
  - by apply (no_calls_untouched x e _ frame_no_call_l) in Hin.
  - by apply (no_calls_untouched x e _ frame_no_call_r) in Hin.
Qed.

End Frame.

(** ** What a run leaves behind *)

Section RunFacts.
Context {R : Type} {O : Outside R}.

Lemma run_cases (self : SheetMonitor) (w : World R) :
  (Forall plain (trace (run self w)) /\ disk (final (run self w)) = disk w /\
   (sheets_service self = None \/ value (_get_sheet_data w) = Return [] \/
    value (_get_sheet_data w) = Raise)) \/
  (exists ids pre acc lt r post,
     sheets_service self = Some tt /\ value (_get_sheet_data w) = Return ids /\
     ids <> [] /\ Forall plain pre /\ Forall plain post /\
     Loop ids (seen_of (value (_load_state w)), 0%nat) acc lt /\
     trace (run self w) =
       pre ++ Print (MsgFound (length ids)) :: lt ++
       FileWrite (<["processed_paper_ids" := elements acc.1]> (value (_load_state w))) r
       :: post ++ [Print (MsgComplete acc.2)] /\
     value (run self w) = Return tt /\
     disk (final (run self w)) =
       match r with
       | Written =>
           Json (<["processed_paper_ids" := elements acc.1]> (value (_load_state w)))
       | OpenFailed => disk w
       | DumpFailed => Unreadable
       end).
Proof.
  destruct (sheets_service self) as [[]|] eqn:Hself.
  - destruct (value (_get_sheet_data w)) as [[|i ids]|] eqn:Hids.
    + left. destruct (run_aborts self w) as [? ?]; auto.
    + right.
      destruct (run_completes self w (i :: ids) Hself Hids) as
        (pre & acc & lt & r & post & H); [done |].
      exists (i :: ids), pre, acc, lt, r, post.
      destruct H as (? & ? & ? & ? & ? & ?). by repeat split.
    + left. destruct (run_aborts self w) as [? ?]; auto.
  - left. destruct (run_aborts self w) as [? ?]; auto.
Qed.

Lemma plain_not_write (l : list Event) st r : Forall plain l -> FileWrite st r ∉ l.
Proof. intros Hl Hin. by destruct (proj1 (Forall_forall _ _) Hl _ Hin). Qed.

(** Whatever a run writes holds the ids that were loaded and the ids a call
    of this run marked, and nothing else. *)
Lemma run_written (self : SheetMonitor) (w : World R) st r :
  FileWrite st r ∈ trace (run self w) ->
  forall x, x ∈ seen_of st <->
    x ∈ seen_of (value (_load_state w)) \/ Exists (marks x) (trace (run self w)).
Proof.
  intros Hin x. destruct (run_cases self w) as
    [(Hplain & _) | (ids & pre & acc & lt & r0 & post & _ & _ & _ & Hpre & Hpost &
                     Hloop & Ht & _)].
  - by apply plain_not_write in Hin.
  - rewrite Ht in Hin |- *.
    apply frame_write in Hin as [-> ->]; [| done | done | by eapply loop_events].
    rewrite seen_of_saved, frame_marks by done.
    apply (loop_seen x _ _ _ _ Hloop).
Qed.

(** The state file after a run: untouched, or what the run wrote, or
    truncated by a failed dump. *)
Lemma run_disk (self : SheetMonitor) (w : World R) :
  disk (final (run self w)) = disk w \/
  (exists st, FileWrite st Written ∈ trace (run self w) /\
              disk (final (run self w)) = Json st) \/
  (exists st, FileWrite st DumpFailed ∈ trace (run self w) /\
              disk (final (run self w)) = Unreadable).
Proof.
  destruct (run_cases self w) as
    [(_ & Hdisk & _) | (ids & pre & acc & lt & r & post & _ & _ & _ & Hpre & Hpost &
                        Hloop & Ht & _ & Hdisk)]; [by left |].
  assert (Hin : FileWrite (<["processed_paper_ids" := elements acc.1]>
                             (value (_load_state w))) r ∈ trace (run self w)).
  { rewrite Ht. apply elem_of_app. right. right. apply elem_of_app. right. left. }
  destruct r; [right; left | by left | right; right]; by eexists.
Qed.

(** A paper id that is fetched and was not loaded is checked. *)
Lemma run_checks (self : SheetMonitor) (w : World R) ids x :
  sheets_service self = Some tt -> value (_get_sheet_data w) = Return ids ->
  x ∈ ids -> x ∉ seen_of (value (_load_state w)) ->
  exists r, HttpGet x r ∈ trace (run self w).
Proof.
  intros Hself Hids Hin Hout.
  destruct (run_completes self w ids Hself Hids) as
    (pre & acc & lt & r & post & Hpre & Hpost & Hloop & Ht & _).
  { intros ->. by apply elem_of_nil in Hin. }
  destruct (loop_checks x _ _ _ _ Hloop Hin Hout) as [r0 Hr0].
  exists r0. rewrite Ht. by apply frame_loop_part.
Qed.

Lemma create_verdict_spec (r : HttpResult Issue) :
  create_verdict r = true <->
  exists response issue_data,
    r = Responded response /\ status_code response = 201 /\
    json response = Some issue_data.
Proof.
  destruct r as [|response]; simpl.
  - split; [done | by intros (? & ? & ? & _)].
  - rewrite andb_true_iff, Z.eqb_eq. split.
    + intros [E Hj]. destruct (json response) as [issue_data|] eqn:E'; [|done].
      by exists response, issue_data.
    + intros (? & issue_data & [= <-] & E & ->). done.
Qed.

Lemma create_verdict_201 (r : HttpResult Issue) :
  create_verdict r = true -> status_of r = Some 201.
Proof.
  destruct r as [|response]; [done |]. simpl.
  intros [E _]%andb_true_iff. apply Z.eqb_eq in E. by rewrite E.
Qed.

Lemma plain_no_summary (l : list Event) : Forall plain l -> ~ Exists summary l.
Proof.
  intros Hl (e & Hin & Hs)%Exists_exists.
  pose proof (proj1 (Forall_forall _ _) Hl _ Hin) as He.
  by destruct e as [[]| | | |].
Qed.

Lemma plain_no_acts (l : list Event) : Forall plain l -> Forall (fun e => ~ acts e) l.
Proof. intros Hl. eapply Forall_impl; [done |]. intros []; simpl; tauto. Qed.

Lemma plain_no_calls (l : list Event) : Forall plain l -> Forall no_call l.
Proof. intros Hl. eapply Forall_impl; [done |]. apply plain_no_call. Qed.

Lemma run_settled (self : SheetMonitor) (w : World R) (x : string) :
  settled x (trace (run self w)).
Proof.
  destruct (run_cases self w) as
    [(Hplain & _) | (ids & pre & acc & lt & r & post & _ & _ & _ & Hpre & Hpost &
                     Hloop & -> & _)].
  - rewrite <- (app_nil_r (trace _)).
    by apply settled_no_call_l; [apply plain_no_calls |].
  - apply frame_settled; [done | done |]. by eapply loop_settled.
Qed.

End RunFacts.

(** ** The claims about single methods *)

Section Methods.
Context {R : Type} {O : Outside R}.

(** C5.  When the spreadsheet API returns [values], [_get_sheet_data]
    returns what the specification describes: the first row is dropped
    whatever it holds, every later row contributes its first cell, trimmed,
    if that is non-empty, and sheet order is kept.  For the rows
    [["header"], ["P1"], [""], ["P2"]] the result is exactly
    [["P1", "P2"]]. *)
Theorem C5_fetch_skips_header (w : World R) (values : list row) :
  (sheets_execute (remote w)).1 = Result (Some values) ->
  value (_get_sheet_data w) = Return (spec_extract values) /\
  (values = example_rows -> value (_get_sheet_data w) = Return ["P1"; "P2"]).
Proof.
  intros Hsheet.
  assert (Hv : value (_get_sheet_data w) = Return (spec_extract values)).
  { destruct (get_sheet_data_spec w) as (_ & _ & ->). rewrite Hsheet.
    destruct values as [|r rows]; [done |]. by rewrite collect_paper_ids_spec. }
  split; [done |]. intros ->. by rewrite Hv.
Qed.

(** C6.  When the issue-list query answers 200 with a list of issues,
    [_check_existing_issues] returns [True] exactly when some issue of
    that list has a title in which the paper id occurs as a substring, at
    any offset; so an issue titled "Paper Review: P10" makes the check
    for "P1" answer [True]. *)
Theorem C6_existence_is_substring_match
    (paper_id : string) (w : World R)
    (response : Response (list Issue)) (issues : list Issue) :
  (requests_get paper_id (remote w)).1 = Responded response ->
  status_code response = 200 ->
  json response = Some issues ->
  (value (_check_existing_issues paper_id w) = true <->
   exists issue, issue ∈ issues /\ occurs_in paper_id (title issue)) /\
  (paper_id = "P1" ->
   (exists issue, issue ∈ issues /\ title issue = "Paper Review: P10") ->
   value (_check_existing_issues paper_id w) = true).
Proof.
  intros Hget Hstatus Hjson.
  assert (Hiff : value (_check_existing_issues paper_id w) = true <->
                 exists issue, issue ∈ issues /\ occurs_in paper_id (title issue)).
  { rewrite check_value, Hget. simpl. rewrite Hstatus, Hjson. simpl.
    apply scan_issues_spec. }
  split; [done |]. intros -> [issue [Hin Htitle]]. apply Hiff.
  exists issue. split; [done |]. rewrite Htitle.
  by exists "Paper Review: ", "0".
Qed.

(** C7.  When the issue-list query raises or answers with a status outside
    200..299, [_check_existing_issues] returns [False] (it is a total
    function: nothing is raised), and the loop body, for a paper id that is
    not yet processed, goes on to send the create request. *)
Theorem C7_check_fails_open (paper_id : string) (w : World R) :
  (status_of (requests_get paper_id (remote w)).1 = None \/
   exists code, status_of (requests_get paper_id (remote w)).1 = Some code /\
                ~ (200 <= code < 300)) ->
  value (_check_existing_issues paper_id w) = false /\
  forall (processed_ids : gset string) (n : nat),
    paper_id ∉ processed_ids ->
    exists r, HttpPost paper_id r ∈ trace (process_paper_id paper_id (processed_ids, n) w).
Proof.
  intros Hstatus.
  assert (Hv : check_verdict paper_id (requests_get paper_id (remote w)).1 = false).
  { destruct (requests_get paper_id (remote w)).1 as [|response]; [done |].
    simpl in *. destruct Hstatus as [[=] | [code [[= <-] Hcode]]].
    destruct (Z.eqb_spec (status_code response) 200) as [E|_]; [lia | done]. }
  split; [by rewrite check_value |].
  intros S n Hout. unfold process_paper_id.
  destruct (decide (paper_id ∈ S)) as [|_]; [done |].
  rewrite bind_run. destruct (check_shape paper_id w) as [ps [_ ->]].
  rewrite Hv. simpl. rewrite bind_run.
  match goal with |- context [_create_github_issue paper_id ?w1] =>
    destruct (create_shape paper_id w1) as [ps' [_ ->]] end.
  simpl. eexists. right. apply elem_of_app. right. left.
Qed.

End Methods.

Lemma C5_fetch_skips_header_witness :
  (sheets_execute (Outside := scripted healthy) (remote fresh)).1
    = Result (Some example_rows) /\
  value (_get_sheet_data (O := scripted healthy) fresh) = Return ["P1"; "P2"].
Proof.
  split; [reflexivity |].
  apply (C5_fetch_skips_header (O := scripted healthy) fresh example_rows);
    reflexivity.
Defined.

Lemma C6_existence_is_substring_match_witness :
  (requests_get (Outside := scripted tracking_p10) "P1" (remote fresh)).1
    = ok_list [{| number := 10; title := "Paper Review: P10" |}] /\
  value (_check_existing_issues (O := scripted tracking_p10) "P1" fresh) = true.
Proof.
  split; [reflexivity |].
  apply (C6_existence_is_substring_match (O := scripted tracking_p10) "P1" fresh
           {| status_code := 200; text := "";
              json := Some [{| number := 10; title := "Paper Review: P10" |}] |}
           [{| number := 10; title := "Paper Review: P10" |}]);
    try reflexivity.
  exists {| number := 10; title := "Paper Review: P10" |}.
  split; [left | reflexivity].
Defined.

Lemma C7_check_fails_open_witness :
  value (_check_existing_issues (O := scripted unlisted) "P1" fresh) = false /\
  exists r,
    HttpPost "P1" r ∈ trace (process_paper_id (O := scripted unlisted) "P1" (∅, 0%nat) fresh).
Proof.
  destruct (C7_check_fails_open (O := scripted unlisted) "P1" fresh) as [Hv Hpost].
  - right. exists 500. split; [reflexivity | lia].
  - split; [exact Hv |]. apply Hpost. apply not_elem_of_empty.
Defined.

(** ** The claims about a run *)

Section RunClaims.
Context {R : Type} {O : Outside R}.

(** C1, as amended.  For a fetched paper id that is not in the loaded set,
    the run asks the tracker whether an issue exists; if no such check finds
    one, it sends a create request; and the set it then saves holds the id
    exactly when a check found an issue or a create succeeded.  After a
    failed create the id is not saved. *)
Theorem C1_seen_only_when_tracked
    (self : SheetMonitor) (w : World R) (ids : list string) (x : string) :
  sheets_service self = Some tt ->
  value (_get_sheet_data w) = Return ids ->
  x ∈ ids ->
  x ∉ seen_of (value (_load_state w)) ->
  (exists r, HttpGet x r ∈ trace (run self w)) /\
  ((forall r, HttpGet x r ∈ trace (run self w) -> check_verdict x r = false) ->
   exists r', HttpPost x r' ∈ trace (run self w)) /\
  (exists st r, FileWrite st r ∈ trace (run self w) /\
     (x ∈ seen_of st <-> exists e, e ∈ trace (run self w) /\ marks x e)).
Proof.
  intros Hself Hids Hin Hout.
  destruct (run_checks self w ids x Hself Hids Hin Hout) as [r0 Hr0].
  destruct (run_completes self w ids Hself Hids) as
    (pre & acc & lt & r & post & Hpre & Hpost & Hloop & Ht & _).
  { intros ->. by apply elem_of_nil in Hin. }
  split; [by exists r0 |]. split.
  - intros Hnone. rewrite Ht in Hr0. apply (frame_call _ _ _ _ _ _ _ Hpre Hpost x) in Hr0; [|done].
    destruct (loop_creates_if_absent x r0 _ _ _ _ Hloop Hr0) as [r' Hr'].
    { apply Hnone. rewrite Ht. by apply frame_loop_part. }
    exists r'. rewrite Ht. by apply frame_loop_part.
  - eexists _, r. split.
    + rewrite Ht. apply elem_of_app. right. right. apply elem_of_app. right. left.
    + rewrite <- Exists_exists.
      rewrite (run_written self w _ r).
      * tauto.
      * rewrite Ht. apply elem_of_app. right. right. apply elem_of_app. right. left.
Qed.

(** C2.  If a paper id was not in the loaded set, every existence check of
    the run for it answered "no issue" and every create for it failed (any
    status other than 201, or no answer at all), then the id is absent from
    what the run writes and from what the next run loads; so the next run,
    if it fetches the id again, checks it again. *)
Theorem C2_failed_create_is_retried
    (self : SheetMonitor) (w : World R) (x : string) :
  x ∉ seen_of (value (_load_state w)) ->
  (forall r, HttpGet x r ∈ trace (run self w) -> check_verdict x r = false) ->
  (forall r, HttpPost x r ∈ trace (run self w) -> status_of r <> Some 201) ->
  (forall st r, FileWrite st r ∈ trace (run self w) -> x ∉ seen_of st) /\
  (x ∉ seen_of (value (_load_state (final (run self w))))) /\
  (forall (self' : SheetMonitor) (w' : World R) (ids : list string),
     disk w' = disk (final (run self w)) ->
     sheets_service self' = Some tt ->
     value (_get_sheet_data w') = Return ids ->
     x ∈ ids ->
     exists r, HttpGet x r ∈ trace (run self' w')).
Proof.
  intros Hout Hcheck Hcreate.
  assert (Hnomark : ~ Exists (marks x) (trace (run self w))).
  { intros (e & Hin & Hm)%Exists_exists. destruct e as [| |p r|p r|]; try done.
    - destruct Hm as [-> Hv]. rewrite (Hcheck r Hin) in Hv. done.
    - destruct Hm as [-> Hv]. by apply (Hcreate r Hin), create_verdict_201. }
  assert (Hwritten : forall st r, FileWrite st r ∈ trace (run self w) -> x ∉ seen_of st).
  { intros st r Hin. rewrite (run_written self w st r Hin). tauto. }
  assert (Hnext : x ∉ seen_of (value (_load_state (final (run self w))))).
  { destruct (run_disk self w) as [Hd | [(st & Hin & Hd) | (st & Hin & Hd)]].
    - by rewrite (load_state_disk w _ Hd).
    - unfold _load_state. rewrite Hd. simpl. by eapply Hwritten.
    - unfold _load_state. rewrite Hd. simpl. apply not_elem_of_empty. }
  split; [done |]. split; [done |].
  intros self' w' ids Hd Hself' Hids Hin.
  apply (run_checks self' w' ids x Hself' Hids Hin).
  by rewrite (load_state_disk _ _ Hd).
Qed.

(** C4.  Whatever a run writes to the state file holds every paper id of
    the set it loaded; and unless the write itself failed after truncating
    the file, the set the next run loads holds them too.  (The early exits
    write nothing and leave the file as it was.) *)
Theorem C4_seen_set_grows (self : SheetMonitor) (w : World R) :
  (forall st r, FileWrite st r ∈ trace (run self w) ->
     seen_of (value (_load_state w)) ⊆ seen_of st) /\
  ((forall st, FileWrite st DumpFailed ∉ trace (run self w)) ->
   seen_of (value (_load_state w))
     ⊆ seen_of (value (_load_state (final (run self w))))).
Proof.
  assert (Hwritten : forall st r, FileWrite st r ∈ trace (run self w) ->
                       seen_of (value (_load_state w)) ⊆ seen_of st).
  { intros st r Hin x Hx. rewrite (run_written self w st r Hin). by left. }
  split; [done |]. intros Hdump.
  destruct (run_disk self w) as [Hd | [(st & Hin & Hd) | (st & Hin & Hd)]].
  - by rewrite (load_state_disk w _ Hd).
  - unfold _load_state at 2. rewrite Hd. simpl. by eapply Hwritten.
  - by apply Hdump in Hin.
Qed.

(** C3, as amended.  Take a run in which every create request that was sent
    succeeded, that is, was answered with status 201 and a body from which
    the issue could be read, so that [_create_github_issue] returned [True]
    ([post_ok], lemma [create_verdict_spec]), and whose write of the state
    file succeeded.  A second run that starts
    from the state file the first one left and fetches the same sequence
    sends no request to the tracker at all (every id is found in the loaded
    set), so it creates nothing, and the count it reports is 0. *)
Theorem C3_second_run_creates_nothing
    (self self' : SheetMonitor) (w w' : World R) (ids : list string) :
  value (_get_sheet_data w) = Return ids ->
  Forall post_ok (trace (run self w)) ->
  (exists st, FileWrite st Written ∈ trace (run self w)) ->
  disk w' = disk (final (run self w)) ->
  value (_get_sheet_data w') = Return ids ->
  Forall no_call (trace (run self' w')) /\
  List.filter created (trace (run self' w')) = [] /\
  (forall k, Print (MsgComplete k) ∈ trace (run self' w') -> k = 0%nat) /\
  (forall x, x ∈ ids -> x ∈ seen_of (value (_load_state w'))).
Proof.
  intros Hids Hok [st Hst] Hd Hids'.
  destruct (run_cases self w) as
    [(Hplain & _) | (ids1 & pre & acc & lt & r & post & _ & Hids1 & _ & Hpre & Hpost &
                     Hloop & Ht & _ & Hdisk)].
  { by apply plain_not_write in Hst. }
  rewrite Hids in Hids1. injection Hids1 as <-.
  rewrite Ht in Hst, Hok.
  apply frame_write in Hst as [-> <-]; [| done | done | by eapply loop_events].
  assert (Hlt : Forall post_ok lt).
  { apply Forall_app in Hok as [_ Hok]. apply Forall_cons in Hok as [_ Hok].
    by apply Forall_app in Hok as [Hok _]. }
  pose proof (loop_all_created _ _ _ _ Hloop Hlt) as Hall.
  assert (Hseen : seen_of (value (_load_state w')) = acc.1).
  { unfold _load_state. rewrite Hd, Hdisk. simpl. apply seen_of_saved. }
  assert (Hnone : Forall no_call (trace (run self' w')) /\
                  forall k, Print (MsgComplete k) ∈ trace (run self' w') -> k = 0%nat).
  { destruct (run_cases self' w') as
      [(Hplain & _) | (ids2 & pre2 & acc2 & lt2 & r2 & post2 & _ & Hids2 & _ & Hpre2 &
                       Hpost2 & Hloop2 & Ht2 & _)].
    - split; [by apply plain_no_calls |]. intros k Hin.
      by destruct (proj1 (Forall_forall _ _) Hplain _ Hin).
    - rewrite Hids' in Hids2. injection Hids2 as <-. rewrite Hseen in Hloop2.
      destruct (loop_skips _ _ _ _ Hloop2) as [-> ->]; [done |].
      rewrite Ht2. split.
      + rewrite frame_eq. apply Forall_app. split; [by apply frame_no_call_l |].
        by apply frame_no_call_r.
      + intros k. rewrite elem_of_app, elem_of_cons, elem_of_app, elem_of_cons, elem_of_app.
        intros [Hin | [[=] | [Hin | [[=] | [Hin | Hin]]]]].
        * by destruct (proj1 (Forall_forall _ _) Hpre2 _ Hin).
        * by apply elem_of_nil in Hin.
        * by destruct (proj1 (Forall_forall _ _) Hpost2 _ Hin).
        * apply list_elem_of_singleton in Hin. by injection Hin. }
  destruct Hnone as [Hcalls Hcount].
  split; [done |]. split; [by apply no_call_not_created |]. split; [done |].
  intros x Hx. rewrite Hseen. by apply Hall.
Qed.

(** C8.  When [_get_sheet_data] returns the empty list, which is what it
    does when the spreadsheet API raises [HttpError] and when the sheet has
    no rows, the run ends normally without a request to the tracker and
    without a write of the state file, and the file is what it was. *)
Theorem C8_empty_fetch_changes_nothing (self : SheetMonitor) (w : World R) :
  (value (_get_sheet_data w) = Return [] \/
   (sheets_execute (remote w)).1 = HttpError \/
   (sheets_execute (remote w)).1 = Result None \/
   (sheets_execute (remote w)).1 = Result (Some [])) ->
  value (_get_sheet_data w) = Return [] /\
  Forall (fun e => ~ acts e) (trace (run self w)) /\
  disk (final (run self w)) = disk w /\
  value (run self w) = Return tt.
Proof.
  intros Hcause.
  assert (Hids : value (_get_sheet_data w) = Return []).
  { destruct (get_sheet_data_spec w) as (_ & _ & Hv).
    destruct Hcause as [? | [E | [E | E]]]; [done | | |]; by rewrite Hv, E. }
  destruct (run_aborts self w) as [Hplain Hdisk]; [by right; left |].
  split; [done |]. split; [by apply plain_no_acts |]. split; [done |].
  destruct (sheets_service self) as [[]|] eqn:Hself.
  - by apply run_empty.
  - by rewrite run_uninitialised.
Qed.

(** C9, as amended.  When the spreadsheet service is available and fetch
    returns a non-empty list, the run prints both summary lines: the number
    of paper ids found and the number of issues created, which is the
    number of create requests that succeeded.  On the two early exits it
    prints one line that names the reason (initialisation failed; no paper
    ids) and neither summary line. *)
Theorem C9_summary_only_after_reconcile (self : SheetMonitor) (w : World R) :
  (forall ids, sheets_service self = Some tt ->
     value (_get_sheet_data w) = Return ids -> ids <> [] ->
     Print (MsgFound (length ids)) ∈ trace (run self w) /\
     Print (MsgComplete (length (List.filter created (trace (run self w)))))
       ∈ trace (run self w)) /\
  (sheets_service self = None ->
     Print MsgInitFailed ∈ trace (run self w) /\ ~ Exists summary (trace (run self w))) /\
  (sheets_service self = Some tt -> value (_get_sheet_data w) = Return [] ->
     Print MsgNoPaperIds ∈ trace (run self w) /\ ~ Exists summary (trace (run self w))).
Proof.
  split; [|split].
  - intros ids Hself Hids Hne.
    destruct (run_completes self w ids Hself Hids Hne) as
      (pre & acc & lt & r & post & Hpre & Hpost & Hloop & -> & _).
    rewrite frame_created by done.
    pose proof (loop_counts _ _ _ _ Hloop) as Hcount. simpl in Hcount.
    rewrite <- Hcount.
    split.
    + apply elem_of_app. right. left.
    + apply elem_of_app. right. right. apply elem_of_app. right. right.
      apply elem_of_app. right. left.
  - intros Hself. destruct (run_aborts self w) as [Hplain _]; [by left |].
    split; [|by apply plain_no_summary].
    rewrite run_uninitialised by done. simpl. right. left.
  - intros Hself Hids. destruct (run_aborts self w) as [Hplain _]; [by right; left |].
    split; [|by apply plain_no_summary].
    destruct (run_empty self w Hself Hids) as [_ ->].
    right. apply elem_of_app. right. apply elem_of_app. right. left.
Qed.

(** C10.  In the trace of a run, after a call that marks a paper id as
    processed (a check that found an issue, a create that succeeded) there
    is no further call to the tracker about that id; hence at most one
    create succeeds per id; and the list the run writes under
    [processed_paper_ids] has no duplicates, whatever the fetched sequence
    and the loaded file held. *)
Theorem C10_once_seen_skipped (self : SheetMonitor) (w : World R) (x : string) :
  (forall t1 e t2, trace (run self w) = t1 ++ e :: t2 -> marks x e ->
     Forall (fun e' => ~ touches x e') t2) /\
  (length (List.filter (created_for x) (trace (run self w))) <= 1)%nat /\
  (forall st r, FileWrite st r ∈ trace (run self w) ->
     NoDup (default [] (st !! "processed_paper_ids"))).
Proof.
  pose proof (run_settled self w x) as Hsettled.
  split; [|split].
  - intros t1 e t2 Ht Hm. by eapply settled_split.
  - by apply settled_created_once.
  - intros st r Hin. destruct (run_cases self w) as
      [(Hplain & _) | (ids & pre & acc & lt & r0 & post & _ & _ & _ & Hpre & Hpost &
                       Hloop & Ht & _)].
    + by apply plain_not_write in Hin.
    + rewrite Ht in Hin.
      apply frame_write in Hin as [-> ->]; [| done | done | by eapply loop_events].
      rewrite lookup_insert_eq. simpl. apply NoDup_elements.
Qed.

End RunClaims.

(** ** The claims on concrete worlds *)

(** C1 as stated fails: the tracker has no issue for "X" and refuses the
    create request; "X" was fetched and was not in the loaded set, yet the
    state the run saves does not hold it. *)
Lemma C1_counterexample :
  value (_get_sheet_data (O := scripted refusing) fresh) = Return ["X"] /\
  ("X" ∉ seen_of (value (_load_state fresh))) /\
  HttpPost "X" server_error ∈ trace (run (O := scripted refusing) ready fresh) /\
  exists st,
    FileWrite st Written ∈ trace (run (O := scripted refusing) ready fresh) /\
    "X" ∉ seen_of st.
Proof.
  split; [reflexivity |]. split; [apply not_elem_of_empty |]. split; [in_trace |].
  exists (<["processed_paper_ids" := elements (∅ : gset string)]> default_state).
  split; [in_trace |]. rewrite seen_of_saved. apply not_elem_of_empty.
Qed.

Lemma C1_seen_only_when_tracked_witness :
  sheets_service ready = Some tt /\
  value (_get_sheet_data (O := scripted healthy) fresh) = Return ["P1"; "P2"] /\
  "P1" ∈ ["P1"; "P2"] /\
  ("P1" ∉ seen_of (value (_load_state fresh))) /\
  exists r, HttpGet "P1" r ∈ trace (run (O := scripted healthy) ready fresh).
Proof.
  assert (H1 : sheets_service ready = Some tt) by reflexivity.
  assert (H2 : value (_get_sheet_data (O := scripted healthy) fresh)
               = Return ["P1"; "P2"]) by reflexivity.
  assert (H3 : "P1" ∈ ["P1"; "P2"]) by left.
  assert (H4 : "P1" ∉ seen_of (value (_load_state (R := unit) fresh)))
    by apply not_elem_of_empty.
  repeat (split; [assumption |]).
  exact (proj1 (C1_seen_only_when_tracked (O := scripted healthy)
                  ready fresh ["P1"; "P2"] "P1" H1 H2 H3 H4)).
Defined.

Lemma C2_failed_create_is_retried_witness :
  ("X" ∉ seen_of (value (_load_state fresh))) /\
  (forall r, HttpGet "X" r ∈ trace (run (O := scripted refusing) ready fresh) ->
             check_verdict "X" r = false) /\
  (forall r, HttpPost "X" r ∈ trace (run (O := scripted refusing) ready fresh) ->
             status_of r <> Some 201) /\
  "X" ∉ seen_of (value (_load_state (final (run (O := scripted refusing) ready fresh)))).
Proof.
  assert (H1 : "X" ∉ seen_of (value (_load_state (R := unit) fresh)))
    by apply not_elem_of_empty.
  assert (H2 : forall r,
             HttpGet "X" r ∈ trace (run (O := scripted refusing) ready fresh) ->
             check_verdict "X" r = false).
  { intros r H. trace_cases H. reflexivity. }
  assert (H3 : forall r,
             HttpPost "X" r ∈ trace (run (O := scripted refusing) ready fresh) ->
             status_of r <> Some 201).
  { intros r H. trace_cases H. discriminate. }
  repeat (split; [assumption |]).
  exact (proj1 (proj2 (C2_failed_create_is_retried (O := scripted refusing)
                         ready fresh "X" H1 H2 H3))).
Defined.

Lemma C3_second_run_creates_nothing_witness :
  value (_get_sheet_data (O := scripted healthy) fresh) = Return ["P1"; "P2"] /\
  Forall post_ok (trace (run (O := scripted healthy) ready fresh)) /\
  (exists st, FileWrite st Written ∈ trace (run (O := scripted healthy) ready fresh)) /\
  value (_get_sheet_data (O := scripted healthy)
           (final (run (O := scripted healthy) ready fresh))) = Return ["P1"; "P2"] /\
  Forall no_call
    (trace (run (O := scripted healthy) ready
              (final (run (O := scripted healthy) ready fresh)))).
Proof.
  assert (H1 : value (_get_sheet_data (O := scripted healthy) fresh)
               = Return ["P1"; "P2"]) by reflexivity.
  assert (H2 : Forall post_ok (trace (run (O := scripted healthy) ready fresh))).
  { apply Forall_forall. intros e H. trace_cases H; exact I || reflexivity. }
  assert (H3 : exists st,
             FileWrite st Written ∈ trace (run (O := scripted healthy) ready fresh)).
  { eexists. in_trace. }
  assert (H4 : value (_get_sheet_data (O := scripted healthy)
                        (final (run (O := scripted healthy) ready fresh)))
               = Return ["P1"; "P2"]) by reflexivity.
  repeat (split; [assumption |]).
  exact (proj1 (C3_second_run_creates_nothing (O := scripted healthy)
                  ready ready fresh _ ["P1"; "P2"] H1 H2 H3 eq_refl H4)).
Defined.

Lemma C8_empty_fetch_changes_nothing_witness :
  (sheets_execute (Outside := scripted unreachable) (remote seeded)).1 = HttpError /\
  Forall (fun e => ~ acts e) (trace (run (O := scripted unreachable) ready seeded)) /\
  disk (final (run (O := scripted unreachable) ready seeded)) = disk seeded.
Proof.
  split; [reflexivity |].
  destruct (C8_empty_fetch_changes_nothing (O := scripted unreachable) ready seeded)
    as (_ & Hacts & Hdisk & _).
  - right. left. reflexivity.
  - split; [exact Hacts | exact Hdisk].
Defined.

(** C9 as stated fails on both early exits: when initialisation failed, and
    when the spreadsheet could not be read, the run prints neither summary
    line. *)
Lemma C9_counterexample :
  trace (run (O := scripted healthy) uninitialised fresh)
    = [Print MsgStarting; Print MsgInitFailed] /\
  ~ Exists summary (trace (run (O := scripted healthy) uninitialised fresh)) /\
  trace (run (O := scripted unreachable) ready fresh)
    = [Print MsgStarting; SheetsGet HttpError; Print MsgErrorFetching;
       Print MsgNoPaperIds] /\
  ~ Exists summary (trace (run (O := scripted unreachable) ready fresh)).
Proof.
  split; [reflexivity |]. split.
  { intros (e & H & Hs)%Exists_exists. trace_cases H; exact Hs. }
  split; [reflexivity |].
  intros (e & H & Hs)%Exists_exists. trace_cases H; exact Hs.
Qed.

(** * Further properties of the script *)

(** ** More about the traces of the loop *)

Lemma prints_unchecked (ps : list Event) :
  Forall is_print ps -> checked ps = [] /\ attempted ps = [].
Proof.
  induction 1 as [|e ps He _ [IH1 IH2]]; [done |].
  destruct e; first [done | simpl; by rewrite IH1, IH2].
Qed.

Lemma prints_not_marks (ps : list Event) :
  Forall is_print ps -> List.filter is_mark ps = [].
Proof. induction 1 as [|e ps He _ IH]; [done |]. by destruct e. Qed.

Lemma no_calls_unchecked (l : list Event) :
  Forall no_call l -> checked l = [] /\ attempted l = [].
Proof.
  induction 1 as [|e l He _ [IH1 IH2]]; [done |].
  destruct e; first [done | simpl; by rewrite IH1, IH2].
Qed.

Lemma no_calls_not_marks (l : list Event) :
  Forall no_call l -> List.filter is_mark l = [].
Proof. induction 1 as [|e l He _ IH]; [done |]. by destruct e. Qed.

Lemma created_is_mark (t : list Event) :
  (length (List.filter created t) <= length (List.filter is_mark t))%nat.
Proof.
  induction t as [|e t IH]; simpl; [lia |].
  destruct e as [| | |p r|]; simpl; try done.
  - destruct (check_verdict _ _); simpl; lia.
  - destruct (create_verdict r); simpl; lia.
Qed.

Lemma guarded_no_post (l : list Event) :
  (forall x r, HttpPost x r ∉ l) -> guarded l.
Proof.
  intros Hl t1 x r t2 ->. exfalso. apply (Hl x r), elem_of_app. right. left.
Qed.

Lemma guarded_no_call (l : list Event) : Forall no_call l -> guarded l.
Proof.
  intros Hl. apply guarded_no_post. intros x r Hin.
  by destruct (proj1 (Forall_forall _ _) Hl _ Hin).
Qed.

Lemma guarded_app (t t' : list Event) : guarded t -> guarded t' -> guarded (t ++ t').
Proof.
  intros Ht Ht' t1 x r t2 Heq.
  apply app_eq_app in Heq as [l [[-> Heq] | [-> Heq]]].
  - destruct l as [|e l]; simpl in Heq.
    + destruct (Ht' [] x r t2) as (t0 & r0 & ps & Hnil & _); [by rewrite app_nil_l |].
      by destruct t0.
    + injection Heq as <- ->.
      destruct (Ht t1 x r l eq_refl) as (t0 & r0 & ps & -> & Hps & Hv).
      by exists t0, r0, ps.
  - destruct (Ht' l x r t2 Heq) as (t0 & r0 & ps & -> & Hps & Hv).
    exists (t ++ t0), r0, ps. by rewrite <- app_assoc.
Qed.

Lemma guarded_check_post (x : string) r r' (ps ps' : list Event) :
  check_verdict x r = false -> Forall is_print ps -> Forall is_print ps' ->
  guarded (HttpGet x r :: ps ++ HttpPost x r' :: ps').
Proof.
  intros Hv Hps Hps' t1 y r1 t2 Heq.
  change (HttpGet x r :: ps ++ HttpPost x r' :: ps')
    with (([HttpGet x r] ++ ps) ++ HttpPost x r' :: ps') in Heq.
  assert (Hno : forall l, Forall is_print l -> HttpPost y r1 ∉ l).
  { intros l Hl Hin. by destruct (proj1 (Forall_forall _ _) Hl _ Hin). }
  apply app_eq_app in Heq as [l [[Heq1 Heq2] | [-> Heq2]]].
  - destruct l as [|e l]; simpl in Heq2.
    + injection Heq2 as -> -> ->. rewrite app_nil_r in Heq1. subst t1.
      by exists [], r, ps.
    + injection Heq2 as <- ->. exfalso.
      destruct t1 as [|e1 t1]; simpl in Heq1; [done |].
      injection Heq1 as <- ->. eapply (Hno (t1 ++ HttpPost y r1 :: l)); [done |].
      apply elem_of_app. right. left.
  - destruct l as [|e l]; simpl in Heq2.
    + injection Heq2 as -> -> ->. exists [], r, ps. by rewrite app_nil_r.
    + injection Heq2 as <- ->. exfalso. eapply (Hno (l ++ HttpPost y r1 :: t2)); [done |].
      apply elem_of_app. right. left.
Qed.

Lemma checked_app (t t' : list Event) : checked (t ++ t') = checked t ++ checked t'.
Proof. apply omap_app. Qed.

Lemma attempted_app (t t' : list Event) :
  attempted (t ++ t') = attempted t ++ attempted t'.
Proof. apply omap_app. Qed.

Section MoreStepFacts.
Context (p : string) (S : gset string) (n : nat).
Context (S' : gset string) (n' : nat) (t : list Event).

Lemma step_size :
  Step p S n (S', n') t -> size S' = (size S + length (List.filter is_mark t))%nat.
Proof.
  intros Hstep.
  inversion Hstep as [Hin | r ps Hout Hc Hps | r r' ps ps' Hout Hc Hc' Hps Hps'
                      | r r' ps ps' Hout Hc Hc' Hps Hps']; subst; simpl;
    rewrite ?Hc, ?List.filter_app; simpl; rewrite ?Hc', ?prints_not_marks by done;
    simpl; rewrite ?size_union, ?size_singleton
      by (intros y ->%elem_of_singleton; done); lia.
Qed.

Lemma step_checked :
  Step p S n (S', n') t ->
  checked t `sublist_of` [p] /\ attempted t `sublist_of` checked t.
Proof.
  intros Hstep.
  inversion Hstep as [Hin | r ps Hout Hc Hps | r r' ps ps' Hout Hc Hc' Hps Hps'
                      | r r' ps ps' Hout Hc Hc' Hps Hps']; subst.
  - split; apply sublist_nil_l.
  - destruct (prints_unchecked ps Hps) as [E1 E2].
    change (HttpGet p r :: ps) with ([HttpGet p r] ++ ps).
    rewrite checked_app, attempted_app, E1, E2.
    split; [simpl; reflexivity | apply sublist_nil_l].
  - destruct (prints_unchecked ps Hps) as [E1 E2].
    destruct (prints_unchecked ps' Hps') as [E1' E2'].
    change (HttpGet p r :: ps ++ HttpPost p r' :: ps')
      with ([HttpGet p r] ++ ps ++ [HttpPost p r'] ++ ps').
    rewrite !checked_app, !attempted_app, E1, E2, E1', E2'.
    split; simpl; reflexivity.
  - destruct (prints_unchecked ps Hps) as [E1 E2].
    destruct (prints_unchecked ps' Hps') as [E1' E2'].
    change (HttpGet p r :: ps ++ HttpPost p r' :: ps')
      with ([HttpGet p r] ++ ps ++ [HttpPost p r'] ++ ps').
    rewrite !checked_app, !attempted_app, E1, E2, E1', E2'.
    split; simpl; reflexivity.
Qed.

Lemma step_guarded : Step p S n (S', n') t -> guarded t.
Proof.
  intros Hstep.
  inversion Hstep as [Hin | r ps Hout Hc Hps | r r' ps ps' Hout Hc Hc' Hps Hps'
                      | r r' ps ps' Hout Hc Hc' Hps Hps']; subst.
  - by apply guarded_no_call.
  - apply guarded_no_post. intros x r0 [[=] | Hin]%elem_of_cons.
    by destruct (proj1 (Forall_forall _ _) Hps _ Hin).
  - by apply guarded_check_post.
  - by apply guarded_check_post.
Qed.

End MoreStepFacts.

Lemma loop_size ids acc acc' t :
  Loop ids acc acc' t ->
  size acc'.1 = (size acc.1 + length (List.filter is_mark t))%nat.
Proof.
  induction 1 as [acc | p ids [S n] [S' n'] acc'' t1 t2 Hstep _ IH]; simpl in *.
  - lia.
  - rewrite List.filter_app, length_app, IH, (step_size _ _ _ _ _ _ Hstep). lia.
Qed.

Lemma loop_checked ids acc acc' t :
  Loop ids acc acc' t ->
  checked t `sublist_of` ids /\ attempted t `sublist_of` checked t.
Proof.
  induction 1 as [acc | p ids [S n] [S' n'] acc'' t1 t2 Hstep _ [IH1 IH2]].
  - split; apply sublist_nil_l.
  - destruct (step_checked _ _ _ _ _ _ Hstep) as [H1 H2].
    rewrite checked_app, attempted_app. split.
    + by apply (sublist_app _ [p]).
    + by apply sublist_app.
Qed.

Lemma loop_guarded ids acc acc' t : Loop ids acc acc' t -> guarded t.
Proof.
  induction 1 as [acc | p ids [S n] [S' n'] acc'' t1 t2 Hstep _ IH].
  - by apply guarded_no_call.
  - apply guarded_app; [by eapply step_guarded | done].
Qed.

(** ** More about the events around the loop *)

Section MoreFrame.
Context (pre lt post : list Event) (k m : nat).
Context (st : gmap string (list string)) (r : WriteResult).
Hypothesis Hpre : Forall plain pre.
Hypothesis Hpost : Forall plain post.

Lemma frame_is_mark :
  List.filter is_mark
    (pre ++ Print (MsgFound k) :: lt ++ FileWrite st r :: post ++ [Print (MsgComplete m)])
  = List.filter is_mark lt.
Proof.
  rewrite frame_eq.
  rewrite (List.filter_app _ (pre ++ [Print (MsgFound k)])), (List.filter_app _ lt).
  rewrite (no_calls_not_marks _ (frame_no_call_l _ _ Hpre)).
  rewrite (no_calls_not_marks _ (frame_no_call_r _ _ _ _ Hpost)). by rewrite app_nil_r.
Qed.

Lemma frame_checked :
  checked
    (pre ++ Print (MsgFound k) :: lt ++ FileWrite st r :: post ++ [Print (MsgComplete m)])
  = checked lt /\
  attempted
    (pre ++ Print (MsgFound k) :: lt ++ FileWrite st r :: post ++ [Print (MsgComplete m)])
  = attempted lt.
Proof.
  rewrite frame_eq.
  rewrite (checked_app (pre ++ [Print (MsgFound k)])), (checked_app lt).
  rewrite (attempted_app (pre ++ [Print (MsgFound k)])), (attempted_app lt).
  destruct (no_calls_unchecked _ (frame_no_call_l _ k Hpre)) as [-> ->].
  destruct (no_calls_unchecked _ (frame_no_call_r _ m st r Hpost)) as [-> ->].
  by rewrite !app_nil_r.
Qed.

Lemma frame_guarded :
  guarded lt ->
  guarded
    (pre ++ Print (MsgFound k) :: lt ++ FileWrite st r :: post ++ [Print (MsgComplete m)]).
Proof.
  intros Hlt. rewrite frame_eq.
  apply guarded_app; [apply guarded_no_call, frame_no_call_l; done |].
  apply guarded_app; [done | apply guarded_no_call, frame_no_call_r; done].
Qed.

End MoreFrame.

(** ** More about what a run leaves behind *)

Section MoreRunFacts.
Context {R : Type} {O : Outside R}.
Local Arguments for_each : simpl never.

Lemma run_raises (self : SheetMonitor) (w : World R) :
  sheets_service self = Some tt -> value (_get_sheet_data w) = Raise ->
  value (run self w) = Raise.
Proof.
  intros Hself Hids. unfold run. rewrite Hself, bind_run. unfold print at 1. simpl.
  by rewrite !bind_run, load_state_final, Hids.
Qed.

(** Every call to the tracker is about a fetched id that was not loaded. *)
Lemma run_touches (self : SheetMonitor) (w : World R) (e : Event) (x : string) :
  e ∈ trace (run self w) -> touches x e ->
  (x ∉ seen_of (value (_load_state w))) /\
  exists ids, value (_get_sheet_data w) = Return ids /\ x ∈ ids.
Proof.
  intros Hin Ht. destruct (run_cases self w) as
    [(Hplain & _) | (ids & pre & acc & lt & r & post & _ & Hids & _ & Hpre & Hpost &
                     Hloop & Htrace & _)].
  - exfalso. apply plain_no_calls in Hplain.
    by apply (no_calls_untouched x e _ Hplain Ht).
  - rewrite Htrace in Hin. apply (frame_call _ _ _ _ _ _ _ Hpre Hpost x) in Hin; [|done].
    pose proof (proj1 (Forall_forall _ _) (loop_touches x _ _ _ _ Hloop) _ Hin Ht)
      as [Hx Hout].
    split; [done |]. by exists ids.
Qed.

(** What a run writes is within the loaded and the fetched ids. *)
Lemma run_saved_within (self : SheetMonitor) (w : World R) ids st r :
  value (_get_sheet_data w) = Return ids ->
  FileWrite st r ∈ trace (run self w) ->
  seen_of st ⊆ seen_of (value (_load_state w)) ∪ list_to_set ids.
Proof.
  intros Hids Hin x Hx. apply elem_of_union.
  apply (run_written self w st r Hin) in Hx as [Hx | (e & He & Hm)%Exists_exists];
    [by left | right].
  destruct (run_touches self w e x He (marks_touches x e Hm)) as (_ & ids' & Hids' & Hx).
  rewrite Hids in Hids'. injection Hids' as <-. by apply elem_of_list_to_set.
Qed.

End MoreRunFacts.

(** ** Further properties of a run *)

Section MoreRunClaims.
Context {R : Type} {O : Outside R}.

(** X7.  The set a run saves holds only ids that were loaded from the state
    file, or that were fetched in this run and marked by one of its calls:
    nothing else gets into the state file. *)
Theorem saved_ids_were_loaded_or_fetched
    (self : SheetMonitor) (w : World R) (ids : list string)
    (st : gmap string (list string)) (r : WriteResult) (x : string) :
  value (_get_sheet_data w) = Return ids ->
  FileWrite st r ∈ trace (run self w) ->
  x ∈ seen_of st ->
  x ∈ seen_of (value (_load_state w)) \/
  (x ∈ ids /\ exists e, e ∈ trace (run self w) /\ marks x e).
Proof.
  intros Hids Hin Hx.
  apply (run_written self w st r Hin) in Hx as [Hx | (e & He & Hm)%Exists_exists];
    [by left | right].
  destruct (run_touches self w e x He (marks_touches x e Hm)) as (_ & ids' & Hids' & Hx).
  rewrite Hids in Hids'. injection Hids' as <-.
  split; [done |]. by exists e.
Qed.

(** X8.  When no create request of a run failed, the set it saves is exactly the
    loaded set together with all fetched ids. *)
Theorem clean_run_saves_all_fetched
    (self : SheetMonitor) (w : World R) (ids : list string)
    (st : gmap string (list string)) (r : WriteResult) :
  value (_get_sheet_data w) = Return ids ->
  Forall post_ok (trace (run self w)) ->
  FileWrite st r ∈ trace (run self w) ->
  seen_of st = seen_of (value (_load_state w)) ∪ list_to_set ids.
Proof.
  intros Hids Hok Hin. apply set_eq. intros x. split.
  - by apply (run_saved_within self w ids st r).
  - intros [Hx | Hx%elem_of_list_to_set]%elem_of_union.
    + apply (run_written self w st r Hin). by left.
    + destruct (run_cases self w) as
        [(Hplain & _) | (ids1 & pre & acc & lt & r0 & post & _ & Hids1 & _ & Hpre &
                         Hpost & Hloop & Ht & _)].
      { by apply plain_not_write in Hin. }
      rewrite Hids in Hids1. injection Hids1 as <-. rewrite Ht in Hin, Hok.
      apply frame_write in Hin as [-> ->]; [| done | done | by eapply loop_events].
      rewrite seen_of_saved. apply (loop_all_created _ _ _ _ Hloop); [|done].
      apply Forall_app in Hok as [_ Hok]. apply Forall_cons in Hok as [_ Hok].
      by apply Forall_app in Hok as [Hok _].
Qed.

(** X10.  A run sends requests to the tracker only about ids that it fetched and
    that were not in the loaded set: an id that is already processed is
    never checked or created again. *)
Theorem calls_only_for_new_ids
    (self : SheetMonitor) (w : World R) (ids : list string) :
  value (_get_sheet_data w) = Return ids ->
  Forall (fun e => forall x, touches x e ->
            x ∈ ids /\ x ∉ seen_of (value (_load_state w)))
         (trace (run self w)).
Proof.
  intros Hids. apply Forall_forall. intros e He x Ht.
  destruct (run_touches self w e x He Ht) as (Hout & ids' & Hids' & Hx).
  rewrite Hids in Hids'. injection Hids' as <-. by split.
Qed.

(** X11.  After a run whose write succeeded, the next run sends no request about
    an id of the saved set: only ids whose create failed (or that are new)
    are tried again. *)
Theorem saved_ids_not_retried
    (self self' : SheetMonitor) (w w' : World R)
    (st : gmap string (list string)) (e : Event) (x : string) :
  FileWrite st Written ∈ trace (run self w) ->
  disk w' = disk (final (run self w)) ->
  e ∈ trace (run self' w') -> touches x e ->
  x ∉ seen_of st.
Proof.
  intros Hin Hd He Ht.
  destruct (run_touches self' w' e x He Ht) as [Hout _].
  assert (Hload : value (_load_state w') = st); [|by rewrite Hload in Hout].
  destruct (run_cases self w) as
    [(Hplain & _) | (ids & pre & acc & lt & r & post & _ & _ & _ & Hpre & Hpost &
                     Hloop & Htrace & _ & Hdisk)].
  { by apply plain_not_write in Hin. }
  rewrite Htrace in Hin.
  apply frame_write in Hin as [-> <-]; [| done | done | by eapply loop_events].
  unfold _load_state. by rewrite Hd, Hdisk.
Qed.

(** X12.  Every create request comes right after an existence check of the same
    id that found nothing, with only printed lines in between: the script
    never creates an issue without having checked for it. *)
Theorem create_follows_failed_check
    (self : SheetMonitor) (w : World R)
    (t1 t2 : list Event) (x : string) (r : HttpResult Issue) :
  trace (run self w) = t1 ++ HttpPost x r :: t2 ->
  exists t0 r0 ps,
    t1 = t0 ++ HttpGet x r0 :: ps /\ Forall is_print ps /\
    check_verdict x r0 = false.
Proof.
  revert t1 x r t2. change (guarded (trace (run self w))).
  destruct (run_cases self w) as
    [(Hplain & _) | (ids & pre & acc & lt & r & post & _ & _ & _ & Hpre & Hpost &
                     Hloop & -> & _)].
  - by apply guarded_no_call, plain_no_calls.
  - apply frame_guarded; [done | done |]. by eapply loop_guarded.
Qed.

(** X13.  The set a run saves has grown by one id for every existence check that
    found an issue and every create that succeeded; so the number of issues
    the run reports as created is at most the growth of the set. *)
Theorem set_grows_by_marking_calls
    (self : SheetMonitor) (w : World R)
    (st : gmap string (list string)) (r : WriteResult) :
  FileWrite st r ∈ trace (run self w) ->
  size (seen_of st) =
    (size (seen_of (value (_load_state w)))
     + length (List.filter is_mark (trace (run self w))))%nat /\
  (size (seen_of (value (_load_state w)))
   + length (List.filter created (trace (run self w))) <= size (seen_of st))%nat.
Proof.
  intros Hin.
  assert (Hsize : size (seen_of st) =
            (size (seen_of (value (_load_state w)))
             + length (List.filter is_mark (trace (run self w))))%nat).
  { destruct (run_cases self w) as
      [(Hplain & _) | (ids & pre & acc & lt & r0 & post & _ & _ & _ & Hpre & Hpost &
                       Hloop & Ht & _)].
    { by apply plain_not_write in Hin. }
    rewrite Ht in Hin |- *.
    apply frame_write in Hin as [-> ->]; [| done | done | by eapply loop_events].
    rewrite seen_of_saved, frame_is_mark by done.
    apply (loop_size _ _ _ _ Hloop). }
  split; [done |]. rewrite Hsize.
  pose proof (created_is_mark (trace (run self w))). lia.
Qed.

(** X14.  A run changes only the key [processed_paper_ids] of the state: every
    other key of the loaded file is written back with its value. *)
Theorem other_keys_preserved
    (self : SheetMonitor) (w : World R)
    (st : gmap string (list string)) (r : WriteResult) (key : string) :
  FileWrite st r ∈ trace (run self w) ->
  key <> "processed_paper_ids" ->
  st !! key = value (_load_state w) !! key.
Proof.
  intros Hin Hkey. destruct (run_cases self w) as
    [(Hplain & _) | (ids & pre & acc & lt & r0 & post & _ & _ & _ & Hpre & Hpost &
                     Hloop & Ht & _)].
  { by apply plain_not_write in Hin. }
  rewrite Ht in Hin.
  apply frame_write in Hin as [-> ->]; [| done | done | by eapply loop_events].
  by rewrite lookup_insert_ne.
Qed.

(** X15.  A run that fetched at least one id writes the state file exactly once,
    whether or not anything changed, and after all its requests to the
    tracker: nothing is saved before the loop has ended. *)
Theorem one_write_after_all_calls
    (self : SheetMonitor) (w : World R) (ids : list string) :
  sheets_service self = Some tt ->
  value (_get_sheet_data w) = Return ids ->
  ids <> [] ->
  exists t1 st r t2,
    trace (run self w) = t1 ++ FileWrite st r :: t2 /\
    List.filter is_write t1 = [] /\
    Forall (fun e => ~ acts e) t2.
Proof.
  intros Hself Hids Hne.
  destruct (run_completes self w ids Hself Hids Hne) as
    (pre & acc & lt & r & post & Hpre & Hpost & Hloop & Ht & _).
  exists (pre ++ Print (MsgFound (length ids)) :: lt),
    (<["processed_paper_ids" := elements acc.1]> (value (_load_state w))), r,
    (post ++ [Print (MsgComplete acc.2)]).
  split; [by rewrite Ht, <- app_assoc |]. split.
  - rewrite List.filter_app. simpl.
    assert (H1 : List.filter is_write pre = []).
    { clear -Hpre. induction Hpre as [|e l He _ IH]; [done |]. by destruct e. }
    assert (H2 : List.filter is_write lt = []).
    { pose proof (loop_events _ _ _ _ Hloop) as Hev. clear -Hev.
      induction Hev as [|e l He _ IH]; [done |].
      destruct e; try done. by destruct He as [? | [x ?]]. }
    by rewrite H1, H2.
  - apply Forall_app. split; [by apply plain_no_acts |].
    constructor; [|constructor]. by intros [].
Qed.

(** X16.  When the spreadsheet service is available and the spreadsheet call
    raises something else than [HttpError], which is all [_get_sheet_data]
    catches, [run] lets the exception escape; it has then sent nothing to
    the tracker, written nothing and printed no summary, and the state file
    is what it was. *)
Theorem fetch_error_escapes (self : SheetMonitor) (w : World R) :
  sheets_service self = Some tt ->
  (sheets_execute (remote w)).1 = OtherError ->
  value (run self w) = Raise /\
  Forall (fun e => ~ acts e) (trace (run self w)) /\
  ~ Exists summary (trace (run self w)) /\
  disk (final (run self w)) = disk w.
Proof.
  intros Hself Hsheet.
  assert (Hfetch : value (_get_sheet_data w) = Raise).
  { destruct (get_sheet_data_spec w) as (_ & _ & ->). by rewrite Hsheet. }
  destruct (run_aborts self w) as [Hplain Hdisk]; [by right; right |].
  split; [by apply run_raises |].
  split; [by apply plain_no_acts |].
  split; [by apply plain_no_summary | done].
Qed.

(** X17.  The existence checks of a run follow sheet order: the checked ids form
    a subsequence of the fetched ids, and the ids for which a create is sent
    form a subsequence of the checked ones. *)
Theorem checks_follow_sheet_order
    (self : SheetMonitor) (w : World R) (ids : list string) :
  value (_get_sheet_data w) = Return ids ->
  checked (trace (run self w)) `sublist_of` ids /\
  attempted (trace (run self w)) `sublist_of` checked (trace (run self w)).
Proof.
  intros Hids. destruct (run_cases self w) as
    [(Hplain & _) | (ids1 & pre & acc & lt & r & post & _ & Hids1 & _ & Hpre & Hpost &
                     Hloop & -> & _)].
  - destruct (no_calls_unchecked _ (plain_no_calls _ Hplain)) as [-> ->].
    split; apply sublist_nil_l.
  - rewrite Hids in Hids1. injection Hids1 as <-.
    destruct (frame_checked pre lt post (length ids) acc.2
                (<["processed_paper_ids" := elements acc.1]> (value (_load_state w)))
                r Hpre Hpost) as [-> ->].
    by eapply loop_checked.
Qed.

End MoreRunClaims.

(** ** Trimming *)

Lemma string_app_assoc (a b c : string) : (a +:+ b) +:+ c = a +:+ (b +:+ c).
Proof.
  induction a as [|x a IH]; [done |].
  change (String x ((a +:+ b) +:+ c) = String x (a +:+ (b +:+ c))). by rewrite IH.
Qed.

Lemma lstrip_fixed (c : ascii) (s : string) :
  Str.isspace c = false -> Str.lstrip (String c s) = String c s.
Proof. intros Hc. simpl. by rewrite Hc. Qed.

Lemma lstrip_head (s : string) :
  Str.lstrip s = "" \/
  exists c s', Str.lstrip s = String c s' /\ Str.isspace c = false.
Proof.
  induction s as [|c s IH]; [by left |]. simpl.
  destruct (Str.isspace c) eqn:Hc; [done |]. right. by exists c, s.
Qed.

Lemma rstrip_head (c : ascii) (s : string) :
  Str.isspace c = false -> Str.rstrip (String c s) = String c (Str.rstrip s).
Proof. intros Hc. simpl. destruct (Str.rstrip s); [by rewrite Hc | done]. Qed.

Lemma rstrip_idem (s : string) : Str.rstrip (Str.rstrip s) = Str.rstrip s.
Proof.
  induction s as [|c s IH]; [done |]. simpl.
  destruct (Str.rstrip s) as [|d t] eqn:E.
  - destruct (Str.isspace c) eqn:Hc; [done |]. simpl. by rewrite Hc.
  - change (Str.rstrip (String c (String d t)))
      with (match Str.rstrip (String d t) with
            | EmptyString =>
                if Str.isspace c then EmptyString else String c EmptyString
            | u => String c u
            end).
    by rewrite IH.
Qed.

Lemma strip_idem (s : string) : Str.strip (Str.strip s) = Str.strip s.
Proof.
  unfold Str.strip. destruct (lstrip_head s) as [-> | (c & s' & -> & Hc)]; [done |].
  rewrite (rstrip_head c s' Hc), (lstrip_fixed c _ Hc), (rstrip_head c _ Hc).
  by rewrite rstrip_idem.
Qed.

(** A stripped string that is not empty begins and ends with a character
    that is not white space. *)
Lemma strip_ends (s : string) :
  Str.lstrip (Str.strip s) = Str.strip s /\ Str.rstrip (Str.strip s) = Str.strip s.
Proof.
  unfold Str.strip. destruct (lstrip_head s) as [-> | (c & s' & -> & Hc)]; [done |].
  split; [|apply rstrip_idem].
  rewrite (rstrip_head c s' Hc). by apply lstrip_fixed.
Qed.

Lemma occurs_in_title (p q : string) : occurs_in p q -> occurs_in p (issue_title q).
Proof.
  intros (pre & post & ->). exists ("Paper Review: " +:+ pre), post.
  unfold issue_title. by rewrite string_app_assoc.
Qed.

Lemma occurs_in_refl (p : string) : occurs_in p p.
Proof.
  exists "", "". change (p = p +:+ ""). induction p as [|c p IH]; [done |].
  change (String c p = String c (p +:+ "")). by rewrite <- IH.
Qed.

(** ** Further properties of single methods *)

Section MoreMethods.
Context {R : Type} {O : Outside R}.

(** X1.  Every paper id that [_get_sheet_data] returns is non-empty and trimmed:
    stripping it again changes nothing, on either side. *)
Theorem fetched_ids_are_trimmed (w : World R) (ids : list string) (x : string) :
  value (_get_sheet_data w) = Return ids ->
  x ∈ ids ->
  x <> "" /\ Str.strip x = x /\ Str.lstrip x = x /\ Str.rstrip x = x.
Proof.
  intros Hids Hx. destruct (get_sheet_data_spec w) as (_ & _ & Hv).
  rewrite Hids in Hv.
  assert (Hspec : exists values, ids = spec_extract values /\ x ∈ ids).
  { destruct (sheets_execute (remote w)).1 as [| |[[|r rows]|]];
      simplify_eq; try by apply elem_of_nil in Hx.
    exists (r :: rows). split; [apply collect_paper_ids_spec | done]. }
  destruct Hspec as (values & -> & _). unfold spec_extract in Hx.
  apply list_elem_of_In, filter_In in Hx as [Hin Htruthy].
  apply list_elem_of_In, list_elem_of_fmap in Hin as (cell & -> & _).
  split; [by destruct (Str.strip cell) |].
  split; [apply strip_idem | apply strip_ends].
Qed.

(** X2.  [_check_existing_issues] answers [True] only for a 200 answer whose
    body is a list with a matching title; every other answer, also another
    2xx status or a body that cannot be parsed, gives [False].  It sends one
    list request and leaves the state file alone. *)
Theorem check_true_iff (paper_id : string) (w : World R) :
  (value (_check_existing_issues paper_id w) = true <->
   exists response issues,
     (requests_get paper_id (remote w)).1 = Responded response /\
     status_code response = 200 /\
     json response = Some issues /\
     exists issue, issue ∈ issues /\ occurs_in paper_id (title issue)) /\
  checked (trace (_check_existing_issues paper_id w)) = [paper_id] /\
  attempted (trace (_check_existing_issues paper_id w)) = [] /\
  disk (final (_check_existing_issues paper_id w)) = disk w.
Proof.
  split.
  - rewrite check_value.
    destruct (requests_get paper_id (remote w)).1 as [|response]; simpl.
    + split; [done | by intros (? & ? & ? & _)].
    + rewrite andb_true_iff, Z.eqb_eq. split.
      * intros [Hs Hj]. destruct (json response) as [issues|] eqn:E; [|done].
        exists response, issues. by rewrite <- scan_issues_spec.
      * intros (? & issues & [= <-] & Hs & -> & Hm). by rewrite scan_issues_spec.
  - destruct (check_shape paper_id w) as [ps [Hps ->]].
    unfold trace, final. cbn [fst snd].
    destruct (prints_unchecked ps Hps) as [E1 E2].
    change (HttpGet paper_id (requests_get paper_id (remote w)).1 :: ps)
      with ([HttpGet paper_id (requests_get paper_id (remote w)).1] ++ ps).
    by rewrite checked_app, attempted_app, E1, E2.
Qed.

(** X3.  [_create_github_issue] answers [True] only for a 201 answer whose body
    carries the new issue, and then prints its number; every other answer,
    a 200 included, and a 201 whose body cannot be read, gives [False].  It
    sends one create request and leaves the state file alone. *)
Theorem create_true_iff (paper_id : string) (w : World R) :
  (value (_create_github_issue paper_id w) = true <->
   exists response issue_data,
     (requests_post paper_id (remote w)).1 = Responded response /\
     status_code response = 201 /\
     json response = Some issue_data /\
     Print (MsgCreated (number issue_data) paper_id)
       ∈ trace (_create_github_issue paper_id w)) /\
  attempted (trace (_create_github_issue paper_id w)) = [paper_id] /\
  checked (trace (_create_github_issue paper_id w)) = [] /\
  disk (final (_create_github_issue paper_id w)) = disk w.
Proof.
  split.
  - unfold _create_github_issue, bind, http_post, print, ret.
    destruct (requests_post paper_id (remote w)) as [[|response] x]; simpl.
    + split; [done | by intros (? & ? & ? & _)].
    + destruct (Z.eqb_spec (status_code response) 201) as [Hs | Hs].
      * destruct (json response) as [issue_data|] eqn:E; simpl.
        -- split; [intros _ | done]. exists response, issue_data.
           repeat split; try done. right. left.
        -- split; [done | by intros (? & ? & [= <-] & _ & ? & _); congruence].
      * simpl. split; [done | by intros (? & ? & [= <-] & ? & _)].
  - destruct (create_shape paper_id w) as [ps [Hps ->]].
    unfold trace, final. cbn [fst snd].
    destruct (prints_unchecked ps Hps) as [E1 E2].
    change (HttpPost paper_id (requests_post paper_id (remote w)).1 :: ps)
      with ([HttpPost paper_id (requests_post paper_id (remote w)).1] ++ ps).
    by rewrite checked_app, attempted_app, E1, E2.
Qed.

(** X4.  An issue that carries the title [_create_github_issue] sends for paper
    id [q] makes the existence check answer [True] for every paper id [p]
    that occurs in [q]: for [q] itself, so the script recognises its own
    issues, and for every shorter id contained in it. *)
Theorem created_issue_is_recognised
    (env : Environ) (now p q : string) (w : World R)
    (response : Response (list Issue)) (issues : list Issue) (issue : Issue) :
  (requests_get p (remote w)).1 = Responded response ->
  status_code response = 200 ->
  json response = Some issues ->
  issue ∈ issues ->
  title issue = post_title (create_request env q now) ->
  occurs_in p q ->
  value (_check_existing_issues p w) = true.
Proof.
  intros Hget Hs Hj Hin Htitle Hocc.
  rewrite check_value, Hget. simpl. rewrite Hs, Hj. simpl.
  apply scan_issues_spec. exists issue. split; [done |].
  rewrite Htitle. by apply occurs_in_title.
Qed.

End MoreMethods.

(** ** The state file and the start of the program *)

Section StateFile.
Context {R : Type} {O : Outside R}.

(** X5.  What [_load_state] returns after [_save_state]: the saved state when
    the write succeeded, what was there before when the file could not be
    opened, and the default empty state when the dump failed after the file
    had been truncated. *)
Theorem save_then_load (state : gmap string (list string)) (w : World R) :
  value (_load_state (final (_save_state state w))) =
    match (file_write (remote w)).1 with
    | Written => state
    | OpenFailed => value (_load_state w)
    | DumpFailed => default_state
    end.
Proof.
  unfold _save_state, _load_state.
  by destruct (file_write (remote w)) as [[] x]; simpl; try destruct (disk w).
Qed.

(** X6.  What the next run loads after a run that reached the write: the
    written state, or the old one, or the empty default; in the last case
    every processed id is forgotten. *)
Theorem next_run_loads
    (self : SheetMonitor) (w : World R)
    (st : gmap string (list string)) (r : WriteResult) :
  FileWrite st r ∈ trace (run self w) ->
  value (_load_state (final (run self w))) =
    match r with
    | Written => st
    | OpenFailed => value (_load_state w)
    | DumpFailed => default_state
    end.
Proof.
  intros Hin. destruct (run_cases self w) as
    [(Hplain & _) | (ids & pre & acc & lt & r0 & post & _ & _ & _ & Hpre & Hpost &
                     Hloop & Ht & _ & Hdisk)].
  { by apply plain_not_write in Hin. }
  rewrite Ht in Hin.
  apply frame_write in Hin as [-> ->]; [| done | done | by eapply loop_events].
  unfold _load_state at 1. rewrite Hdisk. destruct r0; try done.
  unfold _load_state. by destruct (disk w).
Qed.

End StateFile.

Section Main.
Context {R : Type} {S : Services R}.

(** X18.  When the key variable is unset, or the spreadsheet client cannot be
    built from it, the program prints the initialisation error and the two
    lines of [run], sends nothing, writes nothing and ends normally. *)
Theorem main_without_service (env : Environ) (w : World R) :
  (GOOGLE_SERVICE_ACCOUNT_KEY env = None \/
   exists key, GOOGLE_SERVICE_ACCOUNT_KEY env = Some key /\
               (build_service key (remote w)).1 = None) ->
  (main env w).1 = [MsgErrorInitializing] /\
  trace (main env w).2 = [Print MsgStarting; Print MsgInitFailed] /\
  value (main env w).2 = Return tt /\
  disk (final (main env w).2) = disk w /\
  (GOOGLE_SERVICE_ACCOUNT_KEY env = None -> final (main env w).2 = w).
Proof.
  intros Hkey. unfold main, __init__, _init_google_sheets.
  destruct (GOOGLE_SERVICE_ACCOUNT_KEY env) as [key|].
  - destruct Hkey as [[=] | (key' & [= <-] & Hbuild)].
    destruct (build_service key (remote w)) as [[[]|] x]; [done |].
    cbn [fst snd]. rewrite run_uninitialised by done. by repeat split.
  - cbn [fst snd]. rewrite run_uninitialised by done. repeat split. by destruct w.
Qed.

(** When the spreadsheet client can be built, the program is [run] on a
    monitor whose service is available, with the requests of
    [create_request] and [check_request]. *)
Lemma main_with_service (env : Environ) (w : World R) (key : string) :
  GOOGLE_SERVICE_ACCOUNT_KEY env = Some key ->
  (build_service key (remote w)).1 = Some tt ->
  main env w =
    ([], run (O := outside_of env) {| sheets_service := Some tt |}
           {| remote := (build_service key (remote w)).2; disk := disk w |}).
Proof.
  intros Hkey Hbuild. unfold main, __init__, _init_google_sheets. rewrite Hkey.
  by destruct (build_service key (remote w)) as [[[]|] x]; simplify_eq/=.
Qed.

End Main.

(** ** Runs against a tracker that keeps what it is sent *)

Section RunUnfolded.
Context {R : Type} {O : Outside R}.
Local Arguments for_each : simpl never.

(** The path of [run] through the loop, method by method. *)
Lemma run_unfold (self : SheetMonitor) (w : World R) (ids : list string) :
  sheets_service self = Some tt -> value (_get_sheet_data w) = Return ids ->
  ids <> [] ->
  final (run self w) =
    final (_save_state
             (<["processed_paper_ids" :=
                  elements (value (for_each ids (seen_of (value (_load_state w)), 0%nat)
                                     (final (_get_sheet_data w)))).1]>
                (value (_load_state w)))
             (final (for_each ids (seen_of (value (_load_state w)), 0%nat)
                       (final (_get_sheet_data w))))) /\
  List.filter created (trace (run self w)) =
    List.filter created
      (trace (for_each ids (seen_of (value (_load_state w)), 0%nat)
                (final (_get_sheet_data w)))).
Proof.
  intros Hself Hids Hne. unfold run. rewrite Hself, bind_run. unfold print at 1. simpl.
  rewrite !bind_run, load_state_final, Hids.
  destruct (get_sheet_data_spec w) as (Hplain & _ & _).
  pose proof (load_state_plain w) as Hload.
  destruct ids as [|i ids]; [done |]. rewrite !bind_run. unfold print. simpl.
  split; [done |].
  set (lp := for_each (i :: ids) _ _).
  destruct (save_state_spec (<["processed_paper_ids" := elements (value lp).1]>
                               (value (_load_state w))) (final lp))
    as (r & post & Hpost & -> & _).
  rewrite !List.filter_app. simpl. rewrite !List.filter_app. simpl.
  rewrite (no_call_not_created _ (plain_no_calls _ Hplain)).
  rewrite (no_call_not_created _ (plain_no_calls _ Hload)).
  rewrite List.filter_app, (no_call_not_created _ (plain_no_calls _ Hpost)).
  simpl. by rewrite app_nil_r.
Qed.

Lemma run_calls_in_loop (self : SheetMonitor) (w : World R) (ids : list string)
    (e : Event) (x : string) :
  sheets_service self = Some tt -> value (_get_sheet_data w) = Return ids ->
  ids <> [] -> touches x e -> e ∈ trace (run self w) ->
  e ∈ trace (for_each ids (seen_of (value (_load_state w)), 0%nat)
               (final (_get_sheet_data w))).
Proof.
  intros Hself Hids Hne Ht. unfold run.
  rewrite Hself, bind_run. unfold print at 1. simpl.
  rewrite !bind_run, load_state_final, Hids.
  destruct (get_sheet_data_spec w) as (Hplain & _ & _).
  pose proof (load_state_plain w) as Hload.
  destruct ids as [|i ids]; [done |]. rewrite !bind_run. unfold print. simpl.
  set (lp := for_each (i :: ids) _ _).
  destruct (save_state_spec (<["processed_paper_ids" := elements (value lp).1]>
                               (value (_load_state w))) (final lp))
    as (r & post & Hpost & -> & _).
  intros [-> | Hin]%elem_of_cons; [done |].
  apply elem_of_app in Hin as [Hin | Hin].
  { by apply (no_calls_untouched x e _ (plain_no_calls _ Hload)) in Hin. }
  apply elem_of_app in Hin as [Hin | Hin].
  { by apply (no_calls_untouched x e _ (plain_no_calls _ Hplain)) in Hin. }
  apply elem_of_cons in Hin as [-> | Hin]; [done |].
  apply elem_of_app in Hin as [Hin | Hin]; [done |].
  apply elem_of_app in Hin as [Hin | Hin].
  - apply elem_of_cons in Hin as [-> | Hin]; [done |].
    by apply (no_calls_untouched x e _ (plain_no_calls _ Hpost)) in Hin.
  - apply list_elem_of_singleton in Hin as ->. done.
Qed.

Lemma run_empty_final (self : SheetMonitor) (w : World R) :
  sheets_service self = Some tt -> value (_get_sheet_data w) = Return [] ->
  final (run self w) = final (_get_sheet_data w).
Proof.
  intros Hself Hids. unfold run. rewrite Hself, bind_run. unfold print at 1. simpl.
  rewrite !bind_run, load_state_final, Hids. by rewrite !bind_run.
Qed.

End RunUnfolded.

Lemma covered_app (issues new : list Issue) (x : string) :
  covered issues x -> covered (issues ++ new) x.
Proof.
  intros (issue & Hin & Hocc). exists issue. split; [|done].
  apply elem_of_app. by left.
Qed.

Section Keeping.
Context (env : Environ) (rows : list row).

#[local] Instance keeping_services : Services (list Issue) := keeping_tracker rows.
#[local] Instance keeping_outside : Outside (list Issue) := outside_of env.
Local Arguments for_each : simpl never.

(** The issue the tracker stores for a create request about [p]. *)
Lemma keeping_post (p : string) (issues : list Issue) :
  requests_post p issues =
    (Responded {| status_code := 201; text := "";
                  json := Some {| number := Z.of_nat (Datatypes.S (length issues));
                                  title := issue_title p |} |},
     issues ++ [{| number := Z.of_nat (Datatypes.S (length issues));
                   title := issue_title p |}]).
Proof.
  unfold requests_post, keeping_outside, outside_of. cbn [strftime_now keeping_services
    keeping_tracker send_post create_request post_title post_labels].
  destruct (decide _) as [_ | Hno]; [done |]. exfalso. apply Hno. left.
Qed.

Lemma keeping_step (p : string) (S : gset string) (n : nat)
    (issues : list Issue) (d : File) :
  if decide (p ∈ S) then
    process_paper_id p (S, n) {| remote := issues; disk := d |}
    = ((S, n), {| remote := issues; disk := d |}, [])
  else if scan_issues p issues then
    value (process_paper_id p (S, n) {| remote := issues; disk := d |}) = ({[p]} ∪ S, n) /\
    final (process_paper_id p (S, n) {| remote := issues; disk := d |})
      = {| remote := issues; disk := d |} /\
    List.filter created (trace (process_paper_id p (S, n) {| remote := issues; disk := d |}))
      = []
  else
    value (process_paper_id p (S, n) {| remote := issues; disk := d |})
      = ({[p]} ∪ S, Datatypes.S n) /\
    final (process_paper_id p (S, n) {| remote := issues; disk := d |})
      = {| remote := issues ++ [{| number := Z.of_nat (Datatypes.S (length issues));
                                   title := issue_title p |}];
           disk := d |} /\
    length (List.filter created
              (trace (process_paper_id p (S, n) {| remote := issues; disk := d |})))
      = 1%nat.
Proof.
  unfold process_paper_id. destruct (decide (p ∈ S)) as [Hin | Hout]; [done |].
  rewrite bind_run.
  destruct (check_shape p {| remote := issues; disk := d |}) as [ps [Hps ->]].
  cbn [value final trace fst snd remote disk].
  change (requests_get p issues) with (ok_list issues, issues).
  cbn [fst snd]. change (check_verdict p (ok_list issues)) with (scan_issues p issues).
  destruct (scan_issues p issues) eqn:Hscan; cbn [negb].
  - rewrite bind_run. unfold print, ret. cbn [value final trace fst snd].
    repeat split. rewrite app_nil_r, List.filter_app. simpl.
    by rewrite (prints_not_created _ Hps).
  - rewrite bind_run.
    destruct (create_shape p {| remote := issues; disk := d |}) as [ps' [Hps' ->]].
    cbn [value final trace fst snd remote disk]. rewrite keeping_post.
    cbn [fst snd create_verdict status_code json]. simpl.
    repeat split. rewrite app_nil_r, List.filter_app. simpl.
    by rewrite (prints_not_created _ Hps), (prints_not_created _ Hps').
Qed.

Lemma keeping_loop (ids : list string) (S : gset string) (n : nat)
    (issues : list Issue) (d : File) :
  disk (final (for_each ids (S, n) {| remote := issues; disk := d |})) = d /\
  (exists new,
     remote (final (for_each ids (S, n) {| remote := issues; disk := d |}))
       = issues ++ new /\
     length (List.filter created
               (trace (for_each ids (S, n) {| remote := issues; disk := d |})))
       = length new) /\
  (forall x, x ∈ ids ->
     x ∈ S \/
     covered (remote (final (for_each ids (S, n) {| remote := issues; disk := d |}))) x) /\
  ((forall x, x ∈ ids -> x ∈ S \/ covered issues x) ->
   remote (final (for_each ids (S, n) {| remote := issues; disk := d |})) = issues /\
   List.filter created (trace (for_each ids (S, n) {| remote := issues; disk := d |}))
     = []).
Proof.
  revert S n issues. induction ids as [|p ids IH]; intros S n issues.
  - unfold for_each, ret. simpl. split; [done |]. split.
    + exists []. by rewrite app_nil_r.
    + split; [by intros x ?%elem_of_nil | done].
  - change (for_each (p :: ids) (S, n) {| remote := issues; disk := d |})
      with (bind (process_paper_id p (S, n))
              (fun acc' => for_each ids acc')
              {| remote := issues; disk := d |}).
    rewrite bind_run. cbn [value final trace fst snd].
    pose proof (keeping_step p S n issues d) as Hstep.
    destruct (decide (p ∈ S)) as [Hin | Hout].
    + rewrite Hstep. cbn [value final trace fst snd]. rewrite app_nil_l.
      destruct (IH S n issues) as (Hd & Hnew & Hcov & Hnone).
      split; [done |]. split; [done |]. split.
      * intros x [-> | Hx]%elem_of_cons; [by left | by apply Hcov].
      * intros Hall. apply Hnone. intros x Hx. apply Hall. by right.
    + destruct (scan_issues p issues) eqn:Hscan.
      * destruct Hstep as (-> & -> & Hcreated).
        destruct (IH ({[p]} ∪ S) n issues) as (Hd & (new & Hnew & Hlen) & Hcov & Hnone).
        split; [done |]. split; [|split].
        -- exists new. split; [done |]. by rewrite List.filter_app, Hcreated.
        -- intros x [-> | Hx]%elem_of_cons.
           ++ right. rewrite Hnew. apply covered_app. by apply scan_issues_spec.
           ++ destruct (Hcov x Hx) as [[->%elem_of_singleton | ?]%elem_of_union | ?];
                [| by left | by right].
              right. rewrite Hnew. apply covered_app. by apply scan_issues_spec.
        -- intros Hall. rewrite List.filter_app, Hcreated.
           apply Hnone. intros x Hx.
           destruct (Hall x) as [? | ?]; [by right | | by right].
           left. apply elem_of_union. by right.
      * destruct Hstep as (-> & -> & Hcreated).
        set (issue := {| number := Z.of_nat (Datatypes.S (length issues));
                         title := issue_title p |}) in *.
        destruct (IH ({[p]} ∪ S) (Datatypes.S n) (issues ++ [issue]))
          as (Hd & (new & Hnew & Hlen) & Hcov & Hnone).
        assert (Hp : covered (issues ++ [issue]) p).
        { exists issue. split; [apply elem_of_app; right; left |].
          apply occurs_in_title, occurs_in_refl. }
        split; [done |]. split; [|split].
        -- exists (issue :: new). split.
           ++ rewrite Hnew, <- app_assoc. done.
           ++ rewrite List.filter_app, length_app, Hcreated, Hlen. done.
        -- intros x [-> | Hx]%elem_of_cons.
           ++ right. rewrite Hnew. by apply covered_app.
           ++ destruct (Hcov x Hx) as [[->%elem_of_singleton | ?]%elem_of_union | ?];
                [| by left | by right].
              right. rewrite Hnew. by apply covered_app.
        -- intros Hall. exfalso. destruct (Hall p) as [? | Hc]; [left | done |].
           apply scan_issues_spec in Hc. congruence.
Qed.

Lemma keeping_step_posts (p : string) (S : gset string) (n : nat)
    (issues : list Issue) (d : File) (x : string) (r : HttpResult Issue) :
  HttpPost x r ∈ trace (process_paper_id p (S, n) {| remote := issues; disk := d |}) ->
  x = p /\ scan_issues p issues = false.
Proof.
  unfold process_paper_id. destruct (decide (p ∈ S)) as [Hin | Hout].
  { by intros ?%elem_of_nil. }
  rewrite bind_run.
  destruct (check_shape p {| remote := issues; disk := d |}) as [ps [Hps ->]].
  cbn [value final trace fst snd remote disk].
  change (requests_get p issues) with (ok_list issues, issues).
  cbn [fst snd]. change (check_verdict p (ok_list issues)) with (scan_issues p issues).
  assert (Hno : forall l, Forall is_print l -> HttpPost x r ∉ l).
  { intros l Hl Hin. by destruct (proj1 (Forall_forall _ _) Hl _ Hin). }
  destruct (scan_issues p issues) eqn:Hscan; cbn [negb].
  - rewrite bind_run. unfold print, ret. cbn [value final trace fst snd].
    intros [[=] | [Hin | Hin]%elem_of_app]%elem_of_cons.
    + by apply Hno in Hin.
    + rewrite app_nil_r in Hin. by apply list_elem_of_singleton in Hin.
  - rewrite bind_run.
    destruct (create_shape p {| remote := issues; disk := d |}) as [ps' [Hps' ->]].
    cbn [value final trace fst snd remote disk].
    intros [[=] | [Hin | Hin]%elem_of_app]%elem_of_cons.
    + by apply Hno in Hin.
    + apply elem_of_app in Hin as [Hin | Hin].
      * apply elem_of_cons in Hin as [[= -> _] | Hin]; [done |]. by apply Hno in Hin.
      * exfalso. revert Hin. destruct (create_verdict _); by intros ?%elem_of_nil.
Qed.

Lemma keeping_loop_posts (ids : list string) (S : gset string) (n : nat)
    (issues : list Issue) (d : File) (x : string) (r : HttpResult Issue) :
  HttpPost x r ∈ trace (for_each ids (S, n) {| remote := issues; disk := d |}) ->
  ~ covered issues x.
Proof.
  revert S n issues. induction ids as [|p ids IH]; intros S n issues.
  { by intros ?%elem_of_nil. }
  change (for_each (p :: ids) (S, n) {| remote := issues; disk := d |})
    with (bind (process_paper_id p (S, n))
            (fun acc' => for_each ids acc')
            {| remote := issues; disk := d |}).
  rewrite bind_run. cbn [value final trace fst snd].
  intros [Hin | Hin]%elem_of_app.
  - destruct (keeping_step_posts p S n issues d x r Hin) as [-> Hscan].
    intros Hc%scan_issues_spec. congruence.
  - pose proof (keeping_step p S n issues d) as Hstep.
    destruct (decide (p ∈ S)) as [? | ?].
    + rewrite Hstep in Hin. by apply IH in Hin.
    + destruct (scan_issues p issues).
      * destruct Hstep as (Hv & Hf & _). rewrite Hv, Hf in Hin. by apply IH in Hin.
      * destruct Hstep as (Hv & Hf & _). rewrite Hv, Hf in Hin. apply IH in Hin.
        intros Hc. by apply Hin, covered_app.
Qed.

Lemma keeping_fetch (issues : list Issue) (d : File) :
  value (_get_sheet_data {| remote := issues; disk := d |})
    = Return (collect_paper_ids rows) /\
  final (_get_sheet_data {| remote := issues; disk := d |})
    = {| remote := issues; disk := d |}.
Proof.
  unfold _get_sheet_data, bind, call_sheets, print, ret. simpl.
  by destruct rows.
Qed.

Lemma keeping_save (st : gmap string (list string)) (issues : list Issue) (d : File) :
  final (_save_state st {| remote := issues; disk := d |})
    = {| remote := issues; disk := Json st |}.
Proof. done. Qed.

Lemma keeping_run (issues : list Issue) (d : File) :
  (exists new,
     remote (final (run ready {| remote := issues; disk := d |})) = issues ++ new /\
     length (List.filter created (trace (run ready {| remote := issues; disk := d |})))
       = length new) /\
  (forall x, x ∈ collect_paper_ids rows ->
     x ∈ seen_of (value (_load_state {| remote := issues; disk := d |})) \/
     covered (remote (final (run ready {| remote := issues; disk := d |}))) x) /\
  ((forall x, x ∈ collect_paper_ids rows ->
      x ∈ seen_of (value (_load_state {| remote := issues; disk := d |})) \/
      covered issues x) ->
   remote (final (run ready {| remote := issues; disk := d |})) = issues /\
   List.filter created (trace (run ready {| remote := issues; disk := d |})) = []).
Proof.
  destruct (keeping_fetch issues d) as [Hids Hfinal].
  destruct (collect_paper_ids rows) as [|i ids] eqn:E.
  - rewrite (run_empty_final ready _ eq_refl Hids), Hfinal.
    destruct (run_aborts ready {| remote := issues; disk := d |}) as [Hplain _];
      [by right; left |].
    rewrite (no_call_not_created _ (plain_no_calls _ Hplain)).
    split; [exists []; by rewrite app_nil_r |].
    split; [by intros x ?%elem_of_nil | done].
  - destruct (run_unfold ready _ (i :: ids) eq_refl Hids) as [-> ->]; [done |].
    rewrite Hfinal.
    set (S0 := seen_of (value (_load_state {| remote := issues; disk := d |}))).
    destruct (keeping_loop (i :: ids) S0 0%nat issues d)
      as (Hd & Hnew & Hcov & Hnone).
    destruct (final (for_each (i :: ids) (S0, 0%nat) {| remote := issues; disk := d |}))
      as [issues' d'] eqn:Ef.
    rewrite keeping_save. simpl in *. done.
Qed.

(** X19.  Against a tracker that keeps what it is sent: if every id of the loaded
    set has an issue, then after one run every fetched id has an issue whose
    title contains it, and a further run creates nothing, whatever state
    file it starts from, also none.  Losing the state file does not lead to
    duplicate issues. *)
Theorem lost_state_file_creates_no_duplicates
    (issues : list Issue) (d1 d2 : File) :
  (forall x, x ∈ seen_of (value (_load_state {| remote := issues; disk := d1 |})) ->
             covered issues x) ->
  (forall x, x ∈ collect_paper_ids rows ->
     covered (remote (final (run ready {| remote := issues; disk := d1 |}))) x) /\
  remote (final (run ready
                   {| remote := remote (final (run ready {| remote := issues; disk := d1 |}));
                      disk := d2 |}))
    = remote (final (run ready {| remote := issues; disk := d1 |})) /\
  List.filter created
    (trace (run ready
              {| remote := remote (final (run ready {| remote := issues; disk := d1 |}));
                 disk := d2 |})) = [].
Proof.
  intros Hconsistent.
  destruct (keeping_run issues d1) as ((new & Hnew & _) & Hcov & _).
  assert (Hall : forall x, x ∈ collect_paper_ids rows ->
            covered (remote (final (run ready {| remote := issues; disk := d1 |}))) x).
  { intros x Hx. destruct (Hcov x Hx) as [Hseen | ?]; [|done].
    rewrite Hnew. by apply covered_app, Hconsistent. }
  split; [done |].
  destruct (keeping_run (remote (final (run ready {| remote := issues; disk := d1 |}))) d2)
    as (_ & _ & Hnone).
  apply Hnone. intros x Hx. right. by apply Hall.
Qed.

(** X20.  Against a tracker that keeps what it is sent, a run never sends a
    create request for an id that some existing issue title already
    contains, whatever the state file says: neither for an id that has an
    issue of its own, nor for one that merely occurs in the title of
    another. *)
Theorem no_create_for_covered_id
    (issues : list Issue) (d : File) (x : string) (r : HttpResult Issue) :
  covered issues x ->
  HttpPost x r ∉ trace (run ready {| remote := issues; disk := d |}).
Proof.
  intros Hc Hin. destruct (keeping_fetch issues d) as [Hids Hfinal].
  assert (Ht : touches x (HttpPost x r)) by reflexivity.
  destruct (collect_paper_ids rows) as [|i ids] eqn:E.
  - destruct (run_aborts ready {| remote := issues; disk := d |}) as [Hplain _];
      [by right; left |].
    by apply (no_calls_untouched x _ _ (plain_no_calls _ Hplain) Ht) in Hin.
  - apply (run_calls_in_loop ready _ (i :: ids) _ x eq_refl Hids) in Hin; [| done | done].
    rewrite Hfinal in Hin. by apply keeping_loop_posts in Hin.
Qed.

End Keeping.

(** ** The count a clean run reports *)

Section CleanRun.
Context {R : Type} {O : Outside R}.

Lemma run_reports (self : SheetMonitor) (w : World R) st r :
  FileWrite st r ∈ trace (run self w) ->
  Print (MsgComplete (length (List.filter created (trace (run self w)))))
    ∈ trace (run self w).
Proof.
  intros Hin. destruct (run_cases self w) as
    [(Hplain & _) | (ids & pre & acc & lt & r0 & post & _ & _ & _ & Hpre & Hpost &
                     Hloop & Ht & _)].
  { by apply plain_not_write in Hin. }
  rewrite Ht, frame_created by done.
  pose proof (loop_counts _ _ _ _ Hloop) as Hcount. simpl in Hcount. rewrite <- Hcount.
  apply elem_of_app. right. right. apply elem_of_app. right. right.
  apply elem_of_app. right. left.
Qed.

Lemma marks_are_created (t : list Event) :
  (forall x r, HttpGet x r ∈ t -> check_verdict x r = false) ->
  List.filter is_mark t = List.filter created t.
Proof.
  induction t as [|e t IH]; [done |]. intros Hnone.
  assert (IH' : List.filter is_mark t = List.filter created t).
  { apply IH. intros x r Hin. apply Hnone. by right. }
  destruct e as [| |p r| |]; simpl; rewrite ?IH'; try done.
  rewrite (Hnone p r); [done | left].
Qed.

(** X9.  When every existence check of a run found nothing and no create failed,
    the number of issues the run reports as created is the number of
    distinct fetched ids that were not in the loaded set. *)
Theorem clean_run_count
    (self : SheetMonitor) (w : World R) (ids : list string)
    (st : gmap string (list string)) (r : WriteResult) :
  value (_get_sheet_data w) = Return ids ->
  Forall post_ok (trace (run self w)) ->
  (forall x r0, HttpGet x r0 ∈ trace (run self w) -> check_verdict x r0 = false) ->
  FileWrite st r ∈ trace (run self w) ->
  Print (MsgComplete
           (size (list_to_set ids ∖ seen_of (value (_load_state w)) : gset string)))
    ∈ trace (run self w).
Proof.
  intros Hids Hok Hnone Hin.
  assert (Hcount : length (List.filter created (trace (run self w)))
                   = size (list_to_set ids ∖ seen_of (value (_load_state w)) : gset string)).
  { destruct (run_cases self w) as
      [(Hplain & _) | (ids1 & pre & acc & lt & r0 & post & _ & Hids1 & _ & Hpre &
                       Hpost & Hloop & Ht & _)].
    { by apply plain_not_write in Hin. }
    rewrite Hids in Hids1. injection Hids1 as <-.
    rewrite <- (marks_are_created _ Hnone). rewrite Ht in Hok |- *.
    rewrite frame_is_mark by done.
    pose proof (loop_size _ _ _ _ Hloop) as Hsize. simpl in Hsize.
    assert (Hacc : acc.1 = seen_of (value (_load_state w)) ∪ list_to_set ids).
    { apply set_eq. intros x. rewrite elem_of_union, elem_of_list_to_set. split.
      - intros Hx. apply (loop_seen x _ _ _ _ Hloop) in Hx as [? | Hex]; [by left |].
        right. apply Exists_exists in Hex as (e & He & Hm).
        by destruct (proj1 (Forall_forall _ _) (loop_touches x _ _ _ _ Hloop) _ He
                       (marks_touches x e Hm)).
      - intros [Hx | Hx].
        + by apply (loop_grows _ _ _ _ Hloop).
        + apply (loop_all_created _ _ _ _ Hloop); [|done].
          apply Forall_app in Hok as [_ Hok]. apply Forall_cons in Hok as [_ Hok].
          by apply Forall_app in Hok as [Hok _]. }
    rewrite Hacc, size_union_alt in Hsize. lia. }
  rewrite <- Hcount. by eapply run_reports.
Qed.

End CleanRun.

(** ** The further properties on concrete worlds *)

Lemma saved_ids_were_loaded_or_fetched_witness :
  value (_get_sheet_data (O := scripted healthy) fresh) = Return ["P1"; "P2"] /\
  FileWrite (state_with ["P1"; "P2"]) Written
    ∈ trace (run (O := scripted healthy) ready fresh) /\
  "P1" ∈ seen_of (state_with ["P1"; "P2"]) /\
  ("P1" ∈ seen_of (value (_load_state (R := unit) fresh)) \/
   ("P1" ∈ ["P1"; "P2"] /\
    exists e, e ∈ trace (run (O := scripted healthy) ready fresh) /\ marks "P1" e)).
Proof.
  assert (H1 : value (_get_sheet_data (O := scripted healthy) fresh)
               = Return ["P1"; "P2"]) by reflexivity.
  assert (H2 : FileWrite (state_with ["P1"; "P2"]) Written
               ∈ trace (run (O := scripted healthy) ready fresh)) by in_trace.
  assert (H3 : "P1" ∈ seen_of (state_with ["P1"; "P2"])).
  { unfold state_with. rewrite seen_of_saved. apply elem_of_list_to_set. left. }
  repeat (split; [assumption |]).
  exact (saved_ids_were_loaded_or_fetched (O := scripted healthy)
           ready fresh ["P1"; "P2"] _ Written "P1" H1 H2 H3).
Defined.

Lemma clean_run_saves_all_fetched_witness :
  value (_get_sheet_data (O := scripted healthy) seeded) = Return ["P1"; "P2"] /\
  Forall post_ok (trace (run (O := scripted healthy) ready seeded)) /\
  FileWrite (state_with ["P0"; "P1"; "P2"]) Written
    ∈ trace (run (O := scripted healthy) ready seeded) /\
  seen_of (state_with ["P0"; "P1"; "P2"])
    = seen_of (value (_load_state seeded)) ∪ list_to_set ["P1"; "P2"].
Proof.
  assert (H1 : value (_get_sheet_data (O := scripted healthy) seeded)
               = Return ["P1"; "P2"]) by reflexivity.
  assert (H2 : Forall post_ok (trace (run (O := scripted healthy) ready seeded))).
  { apply Forall_forall. intros e H. trace_cases H; exact I || reflexivity. }
  assert (H3 : FileWrite (state_with ["P0"; "P1"; "P2"]) Written
               ∈ trace (run (O := scripted healthy) ready seeded)) by in_trace.
  repeat (split; [assumption |]).
  exact (clean_run_saves_all_fetched (O := scripted healthy)
           ready seeded ["P1"; "P2"] _ Written H1 H2 H3).
Defined.

Lemma calls_only_for_new_ids_witness :
  value (_get_sheet_data (O := scripted healthy) seeded) = Return ["P1"; "P2"] /\
  Forall (fun e => forall x, touches x e ->
            x ∈ ["P1"; "P2"] /\ x ∉ seen_of (value (_load_state seeded)))
         (trace (run (O := scripted healthy) ready seeded)).
Proof.
  split; [reflexivity |].
  apply (calls_only_for_new_ids (O := scripted healthy) ready seeded ["P1"; "P2"]).
  reflexivity.
Defined.

Lemma saved_ids_not_retried_witness :
  FileWrite (state_with ["P2"]) Written
    ∈ trace (run (O := scripted half_refusing) ready fresh) /\
  HttpGet "P1" (ok_list [])
    ∈ trace (run (O := scripted half_refusing) ready
               (final (run (O := scripted half_refusing) ready fresh))) /\
  touches "P1" (HttpGet "P1" (ok_list [])) /\
  "P1" ∉ seen_of (state_with ["P2"]).
Proof.
  assert (H1 : FileWrite (state_with ["P2"]) Written
               ∈ trace (run (O := scripted half_refusing) ready fresh)) by in_trace.
  assert (H2 : HttpGet "P1" (ok_list [])
               ∈ trace (run (O := scripted half_refusing) ready
                          (final (run (O := scripted half_refusing) ready fresh))))
    by in_trace.
  assert (H3 : touches "P1" (HttpGet "P1" (ok_list []))) by reflexivity.
  repeat (split; [assumption |]).
  exact (saved_ids_not_retried (O := scripted half_refusing)
           ready ready fresh _ (state_with ["P2"]) _ "P1" H1 eq_refl H2 H3).
Defined.

Lemma create_follows_failed_check_witness :
  trace (run (O := scripted healthy) ready fresh)
    = take 4 (trace (run (O := scripted healthy) ready fresh))
      ++ HttpPost "P1" (ok_created 1 "P1")
      :: drop 5 (trace (run (O := scripted healthy) ready fresh)) /\
  exists t0 r0 ps,
    take 4 (trace (run (O := scripted healthy) ready fresh))
      = t0 ++ HttpGet "P1" r0 :: ps /\
    Forall is_print ps /\ check_verdict "P1" r0 = false.
Proof.
  assert (H1 : trace (run (O := scripted healthy) ready fresh)
               = take 4 (trace (run (O := scripted healthy) ready fresh))
                 ++ HttpPost "P1" (ok_created 1 "P1")
                 :: drop 5 (trace (run (O := scripted healthy) ready fresh)))
    by (vm_compute; reflexivity).
  split; [assumption |].
  exact (create_follows_failed_check (O := scripted healthy) ready fresh _ _ "P1" _ H1).
Defined.

Lemma set_grows_by_marking_calls_witness :
  FileWrite (state_with ["P2"]) Written
    ∈ trace (run (O := scripted half_refusing) ready fresh) /\
  size (seen_of (state_with ["P2"])) =
    (size (seen_of (value (_load_state (R := unit) fresh)))
     + length (List.filter is_mark (trace (run (O := scripted half_refusing) ready fresh))))%nat.
Proof.
  assert (H1 : FileWrite (state_with ["P2"]) Written
               ∈ trace (run (O := scripted half_refusing) ready fresh)) by in_trace.
  split; [assumption |].
  exact (proj1 (set_grows_by_marking_calls (O := scripted half_refusing)
                  ready fresh _ Written H1)).
Defined.

Lemma other_keys_preserved_witness :
  FileWrite (<["processed_paper_ids" :=
                 elements (list_to_set ["P0"; "P1"; "P2"] : gset string)]>
               annotated_state) Written
    ∈ trace (run (O := scripted healthy) ready annotated) /\
  "owner" <> "processed_paper_ids" /\
  (<["processed_paper_ids" :=
       elements (list_to_set ["P0"; "P1"; "P2"] : gset string)]> annotated_state)
    !! "owner"
    = value (_load_state annotated) !! "owner".
Proof.
  assert (H1 : FileWrite (<["processed_paper_ids" :=
                              elements (list_to_set ["P0"; "P1"; "P2"] : gset string)]>
                            annotated_state) Written
               ∈ trace (run (O := scripted healthy) ready annotated)) by in_trace.
  assert (H2 : "owner" <> "processed_paper_ids") by discriminate.
  repeat (split; [assumption |]).
  exact (other_keys_preserved (O := scripted healthy) ready annotated _ Written "owner" H1 H2).
Defined.

Lemma one_write_after_all_calls_witness :
  sheets_service ready = Some tt /\
  value (_get_sheet_data (O := scripted healthy) seeded) = Return ["P1"; "P2"] /\
  ["P1"; "P2"] <> [] /\
  exists t1 st r t2,
    trace (run (O := scripted healthy) ready seeded) = t1 ++ FileWrite st r :: t2 /\
    List.filter is_write t1 = [] /\
    Forall (fun e => ~ acts e) t2.
Proof.
  assert (H1 : sheets_service ready = Some tt) by reflexivity.
  assert (H2 : value (_get_sheet_data (O := scripted healthy) seeded)
               = Return ["P1"; "P2"]) by reflexivity.
  assert (H3 : ["P1"; "P2"] <> @nil string) by discriminate.
  repeat (split; [assumption |]).
  exact (one_write_after_all_calls (O := scripted healthy) ready seeded _ H1 H2 H3).
Defined.

Lemma checks_follow_sheet_order_witness :
  value (_get_sheet_data (O := scripted half_refusing) fresh) = Return ["P1"; "P2"] /\
  checked (trace (run (O := scripted half_refusing) ready fresh))
    `sublist_of` ["P1"; "P2"].
Proof.
  split; [reflexivity |].
  refine (proj1 (checks_follow_sheet_order (O := scripted half_refusing)
                   ready fresh ["P1"; "P2"] _)).
  reflexivity.
Defined.

Lemma fetched_ids_are_trimmed_witness :
  value (_get_sheet_data (O := scripted healthy) fresh) = Return ["P1"; "P2"] /\
  "P2" ∈ ["P1"; "P2"] /\
  "P2" <> "" /\ Str.strip "P2" = "P2".
Proof.
  assert (H1 : value (_get_sheet_data (O := scripted healthy) fresh)
               = Return ["P1"; "P2"]) by reflexivity.
  assert (H2 : "P2" ∈ ["P1"; "P2"]) by (right; left).
  repeat (split; [assumption |]).
  destruct (fetched_ids_are_trimmed (O := scripted healthy) fresh _ "P2" H1 H2)
    as (Hne & Hstrip & _).
  split; [exact Hne | exact Hstrip].
Defined.

Lemma created_issue_is_recognised_witness :
  (requests_get (Outside := scripted tracking_p10) "P1" (remote fresh)).1
    = ok_list [{| number := 10; title := "Paper Review: P10" |}] /\
  title {| number := 10; title := "Paper Review: P10" |}
    = post_title (create_request full_environ "P10" "2024-01-01 00:00:00") /\
  occurs_in "P1" "P10" /\
  value (_check_existing_issues (O := scripted tracking_p10) "P1" fresh) = true.
Proof.
  assert (H1 : (requests_get (Outside := scripted tracking_p10) "P1" (remote fresh)).1
               = ok_list [{| number := 10; title := "Paper Review: P10" |}])
    by reflexivity.
  assert (H2 : title {| number := 10; title := "Paper Review: P10" |}
               = post_title (create_request full_environ "P10" "2024-01-01 00:00:00"))
    by reflexivity.
  assert (H3 : occurs_in "P1" "P10") by (by exists "", "0").
  repeat (split; [assumption |]).
  apply (created_issue_is_recognised (O := scripted tracking_p10) full_environ
           "2024-01-01 00:00:00" "P1" "P10" fresh _
           [{| number := 10; title := "Paper Review: P10" |}]
           {| number := 10; title := "Paper Review: P10" |} H1);
    [reflexivity | reflexivity | left | exact H2 | exact H3].
Defined.

Lemma next_run_loads_witness :
  FileWrite (state_with ["P2"]) Written
    ∈ trace (run (O := scripted half_refusing) ready fresh) /\
  value (_load_state (final (run (O := scripted half_refusing) ready fresh)))
    = state_with ["P2"].
Proof.
  assert (H1 : FileWrite (state_with ["P2"]) Written
               ∈ trace (run (O := scripted half_refusing) ready fresh)) by in_trace.
  split; [assumption |].
  exact (next_run_loads (O := scripted half_refusing) ready fresh _ Written H1).
Defined.

Lemma main_without_service_witness :
  GOOGLE_SERVICE_ACCOUNT_KEY empty_environ = None /\
  (main (S := keeping_tracker example_rows) empty_environ
     {| remote := []; disk := Missing |}).1 = [MsgErrorInitializing] /\
  trace (main (S := keeping_tracker example_rows) empty_environ
           {| remote := []; disk := Missing |}).2
    = [Print MsgStarting; Print MsgInitFailed].
Proof.
  split; [reflexivity |].
  destruct (main_without_service (S := keeping_tracker example_rows) empty_environ
              {| remote := []; disk := Missing |}) as (Hms & Htrace & _).
  - left. reflexivity.
  - split; [exact Hms | exact Htrace].
Defined.

Lemma lost_state_file_creates_no_duplicates_witness :
  (forall x,
     x ∈ seen_of (value (_load_state {| remote := @nil Issue; disk := Missing |})) ->
     covered [] x) /\
  List.filter created
    (trace (run (O := keeping_outside full_environ example_rows) ready
              {| remote :=
                   remote (final (run (O := keeping_outside full_environ example_rows)
                                    ready {| remote := []; disk := Missing |}));
                 disk := Missing |})) = [].
Proof.
  assert (H1 : forall x,
             x ∈ seen_of (value (_load_state {| remote := @nil Issue; disk := Missing |})) ->
             covered [] x).
  { intros x Hx. by apply not_elem_of_empty in Hx. }
  split; [assumption |].
  exact (proj2 (proj2 (lost_state_file_creates_no_duplicates full_environ example_rows
                         [] Missing Missing H1))).
Defined.

Lemma clean_run_count_witness :
  value (_get_sheet_data (O := scripted healthy) seeded) = Return ["P1"; "P2"] /\
  Forall post_ok (trace (run (O := scripted healthy) ready seeded)) /\
  (forall x r0, HttpGet x r0 ∈ trace (run (O := scripted healthy) ready seeded) ->
                check_verdict x r0 = false) /\
  FileWrite (state_with ["P0"; "P1"; "P2"]) Written
    ∈ trace (run (O := scripted healthy) ready seeded) /\
  Print (MsgComplete
           (size (list_to_set ["P1"; "P2"] ∖ seen_of (value (_load_state seeded))
                  : gset string)))
    ∈ trace (run (O := scripted healthy) ready seeded).
Proof.
  assert (H1 : value (_get_sheet_data (O := scripted healthy) seeded)
               = Return ["P1"; "P2"]) by reflexivity.
  assert (H2 : Forall post_ok (trace (run (O := scripted healthy) ready seeded))).
  { apply Forall_forall. intros e H. trace_cases H; exact I || reflexivity. }
  assert (H3 : forall x r0,
             HttpGet x r0 ∈ trace (run (O := scripted healthy) ready seeded) ->
             check_verdict x r0 = false).
  { intros x r0 H. trace_cases H; reflexivity. }
  assert (H4 : FileWrite (state_with ["P0"; "P1"; "P2"]) Written
               ∈ trace (run (O := scripted healthy) ready seeded)) by in_trace.
  repeat (split; [assumption |]).
  exact (clean_run_count (O := scripted healthy) ready seeded _ _ Written H1 H2 H3 H4).
Defined.

Lemma no_create_for_covered_id_witness :
  covered [{| number := 10; title := "Paper Review: P10" |}] "P1" /\
  HttpPost "P1" (ok_created 2 "P1")
    ∉ trace (run (O := keeping_outside full_environ example_rows) ready
               {| remote := [{| number := 10; title := "Paper Review: P10" |}];
                  disk := Missing |}).
Proof.
  assert (H1 : covered [{| number := 10; title := "Paper Review: P10" |}] "P1").
  { exists {| number := 10; title := "Paper Review: P10" |}.
    split; [left | by exists "Paper Review: ", "0"]. }
  split; [assumption |].
  exact (no_create_for_covered_id full_environ example_rows _ Missing "P1" _ H1).
Defined.

(** C3 as stated fails: every create request of the first run is answered
    with status 201, but with a body that cannot be read, so
    [_create_github_issue] returns [False] and no id is marked; the state file
    is written; the second run, over the same sequence, checks and sends the
    create request for "P1" and "P2" again, and the tracker answers 201
    again. *)
Lemma C3_counterexample :
  value (_get_sheet_data (O := scripted bodiless) fresh) = Return ["P1"; "P2"] /\
  (forall p r, HttpPost p r ∈ trace (run (O := scripted bodiless) ready fresh) ->
               status_of r = Some 201) /\
  FileWrite (state_with []) Written ∈ trace (run (O := scripted bodiless) ready fresh) /\
  value (_get_sheet_data (O := scripted bodiless)
           (final (run (O := scripted bodiless) ready fresh))) = Return ["P1"; "P2"] /\
  attempted (trace (run (O := scripted bodiless) ready
                      (final (run (O := scripted bodiless) ready fresh))))
    = ["P1"; "P2"] /\
  (forall p r,
     HttpPost p r ∈ trace (run (O := scripted bodiless) ready
                             (final (run (O := scripted bodiless) ready fresh))) ->
     status_of r = Some 201).
Proof.
  split; [reflexivity |]. split.
  { intros p r H. trace_cases H; reflexivity. }
  split; [in_trace |]. split; [reflexivity |]. split; [reflexivity |].
  intros p r H. trace_cases H; reflexivity.
Qed.

Lemma fetch_error_escapes_witness :
  sheets_service ready = Some tt /\
  (sheets_execute (Outside := scripted broken_transport) (remote seeded)).1 = OtherError /\
  value (run (O := scripted broken_transport) ready seeded) = Raise /\
  disk (final (run (O := scripted broken_transport) ready seeded)) = disk seeded.
Proof.
  assert (H1 : sheets_service ready = Some tt) by reflexivity.
  assert (H2 : (sheets_execute (Outside := scripted broken_transport) (remote seeded)).1
               = OtherError) by reflexivity.
  repeat (split; [assumption |]).
  destruct (fetch_error_escapes (O := scripted broken_transport) ready seeded H1 H2)
    as (Hraise & _ & _ & Hdisk).
  split; [exact Hraise | exact Hdisk].
Defined.
